(** * Indian stock predictor: the prediction engine

    A shallow embedding of [src/lib/ml-utils.ts], of the prediction
    functions of the page component ([fastPredictStock],
    [enhancedPredictStock], [calculateVolatility]), of the inputs of its
    chart and of the stock route of the server, with the properties of the
    specification stated over it.

    Numbers.  The code is embedded twice.

    - Over [number]: a finite value is an exact rational, and the three
      special values [NaN], [+Infinity] and [-Infinity] are kept, with the
      IEEE rules for them (division by zero, [Infinity - Infinity],
      comparisons with [NaN], ...).  Rounding of finite results, overflow
      and underflow are not part of this embedding.  It carries the
      properties that rounding does not affect: which path runs, which
      error is thrown, what is read and written, which guard or clamp
      applies, and the bounds that every operation keeps when it rounds.

    - Over the doubles of IEEE 754 (module [Double]): the operations of
      [SpecFloat] at precision 53, which round, overflow and underflow as
      the language does.  It carries the properties on which rounding,
      overflow or underflow bear: the confidence of a result, the guards of
      the evaluator, the trend.

    [Math.sin], [Math.cos] and [Math.PI] are an interface ([MathLib]), and
    so is [Math.sqrt] over [number]; so is the library that fits the network
    ([TensorFlow]), whose outcome is any network, a rejection, or no
    answer. *)

From Stdlib Require Import String.
From Stdlib Require Import ZArith QArith Qround Qabs Qpower List Bool Lia Lqa.
From Stdlib Require Import Permutation Sorted Ascii SpecFloat.
Import ListNotations.
Open Scope Q_scope.

(* ================================================================= *)
(** ** JavaScript numbers *)

Inductive number : Type :=
| Fin (q : Q)
| PInf
| NInf
| NaN.

Declare Scope js_scope.
Delimit Scope js_scope with js.
Bind Scope js_scope with number.

Definition isNaN (x : number) : bool :=
  match x with NaN => true | _ => false end.

Definition isFinite (x : number) : bool :=
  match x with Fin _ => true | _ => false end.

Definition neg (x : number) : number :=
  match x with
  | Fin q => Fin (- q)
  | PInf => NInf
  | NInf => PInf
  | NaN => NaN
  end.

Definition add (x y : number) : number :=
  match x, y with
  | NaN, _ | _, NaN => NaN
  | Fin a, Fin b => Fin (a + b)
  | PInf, NInf | NInf, PInf => NaN
  | PInf, _ | _, PInf => PInf
  | NInf, _ | _, NInf => NInf
  end.

Definition sub (x y : number) : number := add x (neg y).

(** [inf_signed c] is the product of an infinity by a finite factor whose
    comparison with zero is [c]; [pos] says whether the infinity is [+]. *)
Definition inf_signed (pos : bool) (c : comparison) : number :=
  match c with
  | Eq => NaN
  | Gt => if pos then PInf else NInf
  | Lt => if pos then NInf else PInf
  end.

Definition mul (x y : number) : number :=
  match x, y with
  | NaN, _ | _, NaN => NaN
  | Fin a, Fin b => Fin (a * b)
  | Fin a, PInf | PInf, Fin a => inf_signed true (a ?= 0)
  | Fin a, NInf | NInf, Fin a => inf_signed false (a ?= 0)
  | PInf, PInf | NInf, NInf => PInf
  | PInf, NInf | NInf, PInf => NInf
  end.

Definition div (x y : number) : number :=
  match x, y with
  | NaN, _ | _, NaN => NaN
  | Fin a, Fin b =>
      if Qeq_bool b 0 then inf_signed true (a ?= 0) else Fin (a / b)
  | Fin _, PInf | Fin _, NInf => Fin 0
  | PInf, Fin b => if Qle_bool 0 b then PInf else NInf
  | NInf, Fin b => if Qle_bool 0 b then NInf else PInf
  | _, _ => NaN
  end.

Infix "+" := add : js_scope.
Infix "-" := sub : js_scope.
Infix "*" := mul : js_scope.
Infix "/" := div : js_scope.

(** The comparison operators of the language: every comparison with [NaN]
    is false. *)
Definition lt (x y : number) : bool :=
  match x, y with
  | NaN, _ | _, NaN => false
  | Fin a, Fin b => negb (Qle_bool b a)
  | NInf, NInf | PInf, _ | _, NInf => false
  | _, _ => true
  end.

Definition gt (x y : number) : bool := lt y x.

(** [x === y] on numbers. *)
Definition strict_eq (x y : number) : bool :=
  match x, y with
  | Fin a, Fin b => Qeq_bool a b
  | PInf, PInf | NInf, NInf => true
  | _, _ => false
  end.

Definition Math_abs (x : number) : number :=
  match x with
  | Fin q => Fin (Qabs q)
  | PInf | NInf => PInf
  | NaN => NaN
  end.

Definition Math_min (x y : number) : number :=
  match x, y with
  | NaN, _ | _, NaN => NaN
  | _, _ => if lt y x then y else x
  end.

Definition Math_max (x y : number) : number :=
  match x, y with
  | NaN, _ | _, NaN => NaN
  | _, _ => if lt x y then y else x
  end.

(** [Math.pow(x, 2)]. *)
Definition pow2 (x : number) : number := (x * x)%js.

(** [Math.min(...l)] and [Math.max(...l)]: the identity of the fold is
    [+Infinity], resp. [-Infinity], as for a call with no argument. *)
Definition Math_min_list (l : list number) : number := fold_left Math_min l PInf.
Definition Math_max_list (l : list number) : number := fold_left Math_max l NInf.

(** [parseFloat(x.toFixed(d))]: the decimal with [d] digits nearest to [x],
    the larger one in magnitude on a tie; a magnitude of 10^21 or more is
    printed in full and read back unchanged, and so are the special values. *)
Definition pow10 (d : nat) : Z := Z.pow 10 (Z.of_nat d).

Definition round_half_up (d : nat) (q : Q) : Q :=
  inject_Z (Qfloor (q * inject_Z (pow10 d) + (1 # 2))) / inject_Z (pow10 d).

Definition toFixed (d : nat) (x : number) : number :=
  match x with
  | Fin q =>
      if Qle_bool (inject_Z (pow10 21)) (Qabs q) then Fin q
      else if Qle_bool 0 q then Fin (round_half_up d q)
           else Fin (- round_half_up d (- q))
  | _ => x
  end.

(** The integer [n] as a number. *)
Definition of_Z (n : Z) : number := Fin (inject_Z n).
Definition of_nat (n : nat) : number := of_Z (Z.of_nat n).

(** Equality of numbers as values (two fractions of one rational are the same
    number). *)
Definition number_eq (x y : number) : Prop :=
  match x, y with
  | Fin a, Fin b => a == b
  | PInf, PInf | NInf, NInf | NaN, NaN => True
  | _, _ => False
  end.


(** [Math.sqrt], [Math.sin], [Math.cos] and [Math.PI] are library values;
    the development relies on this much of them: the root of a finite
    non-negative number is finite and non-negative. *)
Class MathLib : Type := {
  Math_sqrt : number -> number;
  Math_sin : number -> number;
  Math_cos : number -> number;
  Math_PI : number;
  Math_sqrt_finite :
    forall q, 0 <= q -> exists r, Math_sqrt (Fin q) = Fin r /\ 0 <= r
}.

(* ================================================================= *)
(** ** Arrays *)

(** [a[i]] read as a number: an index out of range gives [undefined], which
    every arithmetic operation turns into [NaN]. *)
Definition get (a : list number) (i : Z) : number :=
  if (i <? 0)%Z then NaN else nth (Z.to_nat i) a NaN.

(** [a.slice(-k)]. *)
Definition slice_last {A} (k : nat) (a : list A) : list A :=
  skipn (length a - k) a.

(** [a.slice(from, to)], with [from] and [to] already clamped at zero. *)
Definition slice {A} (from to : nat) (a : list A) : list A :=
  skipn from (firstn to a).

(** [a.reduce((s, v) => s + v, 0)]. *)
Definition sum (a : list number) : number := fold_left add a (Fin 0).

(** [a.reduce((s, v, i) => f s v i, init)] and [a.map((v, i) => f v i)]. *)
Fixpoint reduce_from {A} (f : number -> A -> nat -> number)
    (i : nat) (a : list A) (acc : number) : number :=
  match a with
  | [] => acc
  | v :: a' => reduce_from f (S i) a' (f acc v i)
  end.

Definition reducei {A} (f : number -> A -> nat -> number)
    (a : list A) (init : number) : number :=
  reduce_from f 0 a init.

Fixpoint map_from {A B} (f : A -> nat -> B) (i : nat) (a : list A) : list B :=
  match a with
  | [] => []
  | v :: a' => f v i :: map_from f (S i) a'
  end.

Definition mapi {A B} (f : A -> nat -> B) (a : list A) : list B :=
  map_from f 0 a.

(** [Array.from({length: n}, (_, i) => i)]. *)
Definition iota (n : nat) : list number := map of_nat (seq 0 n).

(** A call returns a value or throws. *)
Inductive Result (A : Type) : Type :=
| Ok (a : A)
| Throw (msg : string).
Arguments Ok {A} a.
Arguments Throw {A} msg.

Definition bind {A B} (r : Result A) (k : A -> Result B) : Result B :=
  match r with
  | Ok a => k a
  | Throw msg => Throw msg
  end.

(** [try { body } catch { handler }]. *)
Definition try_catch {A} (body : Result A) (handler : Result A) : Result A :=
  match body with
  | Ok a => Ok a
  | Throw _ => handler
  end.

Notation "x <- c ;; k" := (bind c (fun x => k))
  (at level 61, c at next level, right associativity).

(* ================================================================= *)
(** ** The page component: the statistical predictor *)

Record StockPoint : Type := { date : string; price : number }.

Inductive Trend : Type := up | down | stable.

Record Prediction : Type := {
  currentPrice : number;
  predictedPrice : number;
  confidence : number;
  trend : Trend;
  change : number;
  changePercent : number
}.

(** The trend of a result: [stable] when the change is below half a percent
    of the current price, else the sign of the change. *)
Definition classify_trend (change currentPrice : number) : Trend :=
  if lt (Math_abs change) (currentPrice * Fin 0.005)%js then stable
  else if gt change (Fin 0) then up else down.

Section FastPredict.
Context {M : MathLib}.

(** The local variables of [fastPredictStock], as functions of [prices]. *)
Definition fast_currentPrice (prices : list number) : number :=
  get prices (Z.of_nat (length prices) - 1).

Definition fast_shortMA (prices : list number) : number :=
  (sum (slice_last 5 prices) / Fin 5)%js.

Definition fast_longMA (prices : list number) : number :=
  (sum (slice_last 20 prices) / Fin 20)%js.

Definition fast_slope (recentPrices : list number) : number :=
  let n := of_nat (length recentPrices) in
  let x := iota (length recentPrices) in
  let sumX := sum x in
  let sumY := sum recentPrices in
  let sumXY :=
    reducei (fun acc xi i => acc + xi * get recentPrices (Z.of_nat i))%js
            x (Fin 0) in
  let sumXX := reducei (fun acc xi _ => acc + xi * xi)%js x (Fin 0) in
  ((n * sumXY - sumX * sumY) / (n * sumXX - sumX * sumX))%js.

Definition fast_nextPrice (recentPrices : list number) : number :=
  let n := of_nat (length recentPrices) in
  let sumX := sum (iota (length recentPrices)) in
  let sumY := sum recentPrices in
  let slope := fast_slope recentPrices in
  let intercept := ((sumY - slope * sumX) / n)%js in
  (slope * n + intercept)%js.

(** Shared by [fastPredictStock] and [calculateVolatility]. *)
Definition returns_of (prices : list number) : list number :=
  mapi (fun price i => (price - get prices (Z.of_nat i))
                       / get prices (Z.of_nat i))%js
       (tl prices).

Definition volatility_of (prices : list number) : number :=
  let returns := returns_of prices in
  let avgReturn := (sum returns / of_nat (length returns))%js in
  let variance :=
    (fold_left (fun s ret => s + pow2 (ret - avgReturn))%js returns (Fin 0)
     / of_nat (length returns))%js in
  Math_sqrt variance.

Definition fast_confidence (prices : list number) : number :=
  let currentPrice := fast_currentPrice prices in
  let shortMA := fast_shortMA prices in
  let longMA := fast_longMA prices in
  let slope := fast_slope (slice_last 10 prices) in
  let volatility := volatility_of prices in
  let trendStrength := Math_abs slope in
  let maConsistency := (Math_abs (shortMA - longMA) / currentPrice)%js in
  let baseConfidence :=
    Math_min (Fin 90) (trendStrength * Fin 1000 + maConsistency * Fin 100)%js in
  let volatilityPenalty := Math_min (Fin 30) (volatility * Fin 500)%js in
  Math_max (Fin 45) (Math_min (Fin 90) (baseConfidence - volatilityPenalty)%js).

Definition fastPredictStock (stockData : list StockPoint) : Result Prediction :=
  if (length stockData <? 10)%nat then
    Throw "Insufficient data for prediction"%string
  else
    let prices := map price stockData in
    let currentPrice := fast_currentPrice prices in
    let nextPrice := fast_nextPrice (slice_last 10 prices) in
    let change := (nextPrice - currentPrice)%js in
    let changePercent := (change / currentPrice * Fin 100)%js in
    let confidence := fast_confidence prices in
    Ok {| currentPrice := toFixed 2 currentPrice;
          predictedPrice := toFixed 2 nextPrice;
          confidence := toFixed 1 confidence;
          trend := classify_trend change currentPrice;
          change := toFixed 2 change;
          changePercent := toFixed 2 changePercent |}.

(** [calculateVolatility]. *)
Definition calculateVolatility (prices : list number) : number :=
  if (length prices <? 2)%nat then Fin 0 else volatility_of prices.

End FastPredict.

(* ================================================================= *)
(** ** [src/lib/ml-utils.ts] *)

(** The object [data['Time Series (Daily)']]: its own keys in insertion
    order, each with the number that [parseFloat] reads from its
    ['4. close'] string.  ([enhancedPredictStock] writes that string with
    [toString], which [parseFloat] reads back unchanged.) *)
Definition TimeSeries : Type := list (string * number).

(** The property [k] of [acc] itself gets the value [v]: an existing key
    keeps its place, a new one comes last. *)
Fixpoint own_set (acc : TimeSeries) (k : string) (v : number) : TimeSeries :=
  match acc with
  | [] => [(k, v)]
  | (k', v') :: acc' =>
      if String.eqb k' k then (k', v) :: acc' else (k', v') :: own_set acc' k v
  end.

(** [acc[k] = v] where [v] is an object.  The key [__proto__] is the
    accessor that [acc] inherits from [Object.prototype]: the assignment
    replaces the prototype of [acc] and gives [acc] no property of its
    own, so that [Object.keys] does not list it. *)
Definition obj_set (acc : TimeSeries) (k : string) (v : number) : TimeSeries :=
  if String.eqb k "__proto__" then acc else own_set acc k v.

(** [o[k]], [undefined] read as [NaN]. *)
Fixpoint obj_get (o : TimeSeries) (k : string) : number :=
  match o with
  | [] => NaN
  | (k', v) :: o' => if String.eqb k' k then v else obj_get o' k
  end.

(** [Object.keys(o).sort()]: the keys in the order of their code units. *)
Fixpoint insert_key (k : string) (ks : list string) : list string :=
  match ks with
  | [] => [k]
  | k' :: ks' => if String.leb k k' then k :: ks else k' :: insert_key k ks'
  end.

Definition sorted_keys (o : TimeSeries) : list string :=
  fold_right insert_key [] (map fst o).

Record StockData : Type := {
  dates : list string;
  prices : list number;
  xs : list number
}.

(** [dates.map(date => ...)] of [processStockData]: the first price that is
    not a number throws.  (The message of the code goes on with a colon and
    the string that was read; the strings are not part of [TimeSeries], and
    the message here stops after the date.) *)
Fixpoint parse_prices (o : TimeSeries) (ds : list string) : Result (list number) :=
  match ds with
  | [] => Ok []
  | d :: ds' =>
      let price := obj_get o d in
      if isNaN price then Throw ("Invalid price data for date " ++ d)%string
      else rest <- parse_prices o ds' ;; Ok (price :: rest)
  end.

Definition processStockData (timeSeries : option TimeSeries) : Result StockData :=
  match timeSeries with
  | None => Throw "Invalid stock data format"%string
  | Some ts =>
      let dates := sorted_keys ts in
      prices <- parse_prices ts dates ;;
      if (length prices =? 0)%nat then Throw "No valid price data found"%string
      else if existsb isNaN prices then
        Throw "Price data contains invalid values"%string
      else
        Ok {| dates := dates; prices := prices; xs := iota (length dates) |}
  end.

Record NormalizationParams : Type := {
  xMin : number; xMax : number; yMin : number; yMax : number
}.

Section Features.
Context {M : MathLib}.
Variable params : NormalizationParams.

Definition xNorm_of (x : number) : number :=
  ((x - xMin params) / (xMax params - xMin params))%js.

Definition ma3_of (prices : list number) (index : Z) : number :=
  if (2 <=? index)%Z then
    ((get prices index + get prices (index - 1) + get prices (index - 2))
     / Fin 3)%js
  else get prices index.

(** [prices.slice(Math.max(0, index-4), index+1)]. *)
Definition window5 (prices : list number) (index : Z) : list number :=
  slice (Z.to_nat (Z.max 0 (index - 4))) (Z.to_nat (index + 1)) prices.

Definition ma5_of (prices : list number) (index : Z) : number :=
  if (4 <=? index)%Z then
    (sum (window5 prices index) / of_Z (Z.min 5 (index + 1)))%js
  else get prices index.

Definition momentum_of (prices : list number) (index : Z) : number :=
  if (0 <? index)%Z then (get prices index - get prices (index - 1))%js
  else Fin 0.

Definition feature_volatility_of (prices : list number) (index : Z) : number :=
  let ma5 := ma5_of prices index in
  if (5 <=? index)%Z then
    Math_sqrt
      (fold_left (fun sum p => sum + pow2 (p - ma5))%js
                 (window5 prices index) (Fin 0)
       / of_Z (Z.min 5 (index + 1)))%js
  else Fin 0.

Definition createAdvancedFeatures
    (x : number) (prices : list number) (index : Z) : list number :=
  let xNorm := xNorm_of x in
  let ma3 := ma3_of prices index in
  let ma5 := ma5_of prices index in
  let momentum := momentum_of prices index in
  let volatility := feature_volatility_of prices index in
  let range := (yMax params - yMin params)%js in
  [ xNorm;
    (xNorm * xNorm)%js;
    Math_sin (xNorm * Fin 2 * Math_PI)%js;
    Math_cos (xNorm * Fin 2 * Math_PI)%js;
    Math_sin (xNorm * Fin 4 * Math_PI)%js;
    ((ma3 - yMin params) / range)%js;
    ((ma5 - yMin params) / range)%js;
    (momentum / range)%js;
    (volatility / range)%js ].
End Features.

(** A [tf.Sequential] after training: the forward pass on one row of nine
    features, and the three properties that [trainLinearRegressionModel]
    attaches to the object. *)
Record Model : Type := {
  forward : list number -> number;
  normalizationParams : option NormalizationParams;
  model_createAdvancedFeatures :
    option (number -> list number -> Z -> list number);
  trainingPrices : option (list number)
}.

(** A promise settles after some milliseconds, or never does. *)
Inductive Promise (A : Type) : Type :=
| Resolves (ms : N) (a : A)
| Rejects (ms : N) (msg : string)
| Pending.
Arguments Resolves {A} ms a.
Arguments Rejects {A} ms msg.
Arguments Pending {A}.

(** [await Promise.race([p, timeout])] where [timeout] rejects with [msg]
    after [limit] milliseconds.  The promise [p] exists before the timer is
    started, so it wins the race when it settles within [limit]
    milliseconds, the last one included. *)
Definition race_timeout {A} (limit : N) (msg : string) (p : Promise A)
    : Result A :=
  match p with
  | Resolves ms a => if (ms <=? limit)%N then Ok a else Throw msg
  | Rejects ms m => if (ms <=? limit)%N then Throw m else Throw msg
  | Pending => Throw msg
  end.

(** The library that builds and fits the network: from the feature rows and
    the normalized targets, the forward pass of the fitted network, or a
    rejection, after some time. *)
Class TensorFlow : Type := {
  fit : list (list number) -> list number -> Promise (list number -> number)
}.

Section MlUtils.
Context {M : MathLib} {T : TensorFlow}.

Definition trainLinearRegressionModel (xs ys : list number) : Promise Model :=
  let params := {| xMin := Math_min_list xs; xMax := Math_max_list xs;
                   yMin := Math_min_list ys; yMax := Math_max_list ys |} in
  let xsFeatures := mapi (fun x i => createAdvancedFeatures params x ys (Z.of_nat i)) xs in
  let ysNorm := map (fun y => (y - yMin params) / (yMax params - yMin params))%js ys in
  match fit xsFeatures ysNorm with
  | Resolves ms net =>
      Resolves ms {| forward := net;
                     normalizationParams := Some params;
                     model_createAdvancedFeatures :=
                       Some (createAdvancedFeatures params);
                     trainingPrices := Some ys |}
  | Rejects ms msg => Rejects ms msg
  | Pending => Pending
  end.

(** The bound applied to every denormalized output. *)
Definition bound_output (params : NormalizationParams) (val : number) : number :=
  Math_max (yMin params * Fin 0.8)%js (Math_min (yMax params * Fin 1.2)%js val).

Definition predictNextDay (model : Model) (nextDayIndex : Z) : Result number :=
  match normalizationParams model, model_createAdvancedFeatures model,
        trainingPrices model with
  | Some params, Some createFeatures, Some trainingPrices =>
      let features :=
        createFeatures (of_Z nextDayIndex) trainingPrices
          (Z.min nextDayIndex (Z.of_nat (length trainingPrices) - 1)) in
      let normalizedResult := forward model features in
      let result :=
        (normalizedResult * (yMax params - yMin params) + yMin params)%js in
      Ok (if isNaN result then yMin params else bound_output params result)
  | _, _, _ => Throw "Model missing required parameters"%string
  end.

(** [a || b] on numbers: [a] unless it is [0] or [NaN]. *)
Definition or_else (a b : number) : number :=
  if isNaN a || strict_eq a (Fin 0) then b else a.

Definition getPredictionsForData (model : Model) (xs : list number)
    : Result (list number) :=
  match normalizationParams model, model_createAdvancedFeatures model,
        trainingPrices model with
  | Some params, Some createFeatures, Some trainingPrices =>
      let xsFeatures :=
        mapi (fun x i => createFeatures x trainingPrices (Z.of_nat i)) xs in
      let normalizedResults := map (forward model) xsFeatures in
      let result :=
        map (fun val => val * (yMax params - yMin params) + yMin params)%js
            normalizedResults in
      Ok (mapi (fun val i =>
                  if isNaN val then
                    or_else (get trainingPrices (Z.of_nat i))
                            ((yMin params + yMax params) / Fin 2)%js
                  else bound_output params val)
               result)
  | _, _, _ => Throw "Model missing required parameters"%string
  end.

Definition length_mismatch : string :=
  "Actual and predicted arrays must have the same length".

Definition totalSumSquares (actual : list number) : number :=
  let actualMean := (sum actual / of_nat (length actual))%js in
  fold_left (fun sum val => sum + pow2 (val - actualMean))%js actual (Fin 0).

Definition residualSumSquares (actual predicted : list number) : number :=
  reducei (fun sum val i => sum + pow2 (val - get predicted (Z.of_nat i)))%js
          actual (Fin 0).

Definition calculateR2Score (actual predicted : list number) : Result number :=
  if negb (length actual =? length predicted)%nat then Throw length_mismatch
  else
    let hasNaNActual := existsb isNaN actual in
    let hasNaNPredicted := existsb isNaN predicted in
    if hasNaNActual || hasNaNPredicted then Ok (Fin 0)
    else
      let totalSumSquares := totalSumSquares actual in
      let residualSumSquares := residualSumSquares actual predicted in
      if strict_eq totalSumSquares (Fin 0) then Ok (Fin 0)
      else
        let r2 := (Fin 1 - residualSumSquares / totalSumSquares)%js in
        Ok (if isNaN r2 then Fin 0 else r2).

Definition calculateMSE (actual predicted : list number) : Result number :=
  if negb (length actual =? length predicted)%nat then Throw length_mismatch
  else
    let hasNaNActual := existsb isNaN actual in
    let hasNaNPredicted := existsb isNaN predicted in
    if hasNaNActual || hasNaNPredicted then Ok (Fin 0)
    else
      let sumSquaredErrors := residualSumSquares actual predicted in
      let mse := (sumSquaredErrors / of_nat (length actual))%js in
      Ok (if isNaN mse then Fin 0 else mse).
End MlUtils.

(* ================================================================= *)
(** ** The page component: the enhanced predictor *)

Section Enhanced.
Context {M : MathLib} {T : TensorFlow}.

(** [stockData[stockData.length - 1].price]; reading [price] of
    [undefined] throws. *)
Definition last_price (stockData : list StockPoint) : Result number :=
  match nth_error stockData (length stockData - 1) with
  | Some d => Ok (price d)
  | None => Throw "TypeError"%string
  end.

(** The body of the inner [try] of [enhancedPredictStock]. *)
Definition enhanced_try (stockData : list StockPoint) : Result Prediction :=
  processedData <-
    processStockData
      (Some (fold_left (fun acc item => obj_set acc (date item) (price item))
                       stockData [])) ;;
  model <- race_timeout 8000%N "ML timeout"
             (trainLinearRegressionModel (xs processedData) (prices processedData)) ;;
  predictions <- getPredictionsForData model (xs processedData) ;;
  nextPrice <- predictNextDay model (Z.of_nat (length (xs processedData))) ;;
  r2Score <- calculateR2Score (prices processedData) predictions ;;
  mse <- calculateMSE (prices processedData) predictions ;;
  currentPrice <- last_price stockData ;;
  let change := (nextPrice - currentPrice)%js in
  let changePercent := (change / currentPrice * Fin 100)%js in
  let baseConfidence := Math_max (Fin 0) (Math_min (Fin 100) (r2Score * Fin 100)%js) in
  let mseConfidence := Math_max (Fin 0) (Fin 100 - mse / currentPrice * Fin 100)%js in
  let volatility := calculateVolatility (prices processedData) in
  let volatilityPenalty := Math_min (Fin 20) (volatility * Fin 10)%js in
  let confidence :=
    Math_max (Fin 40)
      (Math_min (Fin 95)
         (baseConfidence * Fin 0.6 + mseConfidence * Fin 0.4 - volatilityPenalty)%js) in
  Ok {| currentPrice := toFixed 2 currentPrice;
        predictedPrice := toFixed 2 nextPrice;
        confidence := toFixed 1 confidence;
        trend := classify_trend change currentPrice;
        change := toFixed 2 change;
        changePercent := toFixed 2 changePercent |}.

Definition enhancedPredictStock (stockData : list StockPoint) : Result Prediction :=
  fastResult <- fastPredictStock stockData ;;
  try_catch (enhanced_try stockData) (Ok fastResult).
End Enhanced.

(* ================================================================= *)
(** ** The statistical predictor over the store *)

(** Arrays are objects of the store; a variable holds a reference.  The
    array methods that [fastPredictStock] calls ([map], [slice], [reduce],
    [Array.from], indexing, [length]) read their receiver and, for the first
    three, allocate the array they return. *)
Inductive object : Type :=
| PointArray (a : list StockPoint)
| NumberArray (a : list number).

Definition heap : Type := list object.
Definition ref : Type := nat.

Definition St (A : Type) : Type := heap -> A * heap.

Definition ret {A} (a : A) : St A := fun h => (a, h).

Definition bindS {A B} (m : St A) (k : A -> St B) : St B :=
  fun h => let (a, h') := m h in k a h'.

Notation "x <~ c ;; k" := (bindS c (fun x => k))
  (at level 61, c at next level, right associativity).

Definition alloc (o : object) : St ref :=
  fun h => (length h, h ++ [o]).

Definition read_points (r : ref) : St (list StockPoint) :=
  fun h => (match nth_error h r with Some (PointArray a) => a | _ => [] end, h).

Definition read_numbers (r : ref) : St (list number) :=
  fun h => (match nth_error h r with Some (NumberArray a) => a | _ => [] end, h).

(** [a.length]. *)
Definition array_length (r : ref) : St nat :=
  fun h => (match nth_error h r with
            | Some (PointArray a) => length a
            | Some (NumberArray a) => length a
            | None => 0%nat
            end, h).

(** [stockData.map(d => d.price)]. *)
Definition array_map_price (r : ref) : St ref :=
  a <~ read_points r ;; alloc (NumberArray (map price a)).

(** [a.slice(-k)] and [a.slice(1)]. *)
Definition array_slice_last (k : nat) (r : ref) : St ref :=
  a <~ read_numbers r ;; alloc (NumberArray (slice_last k a)).

Definition array_slice_1 (r : ref) : St ref :=
  a <~ read_numbers r ;; alloc (NumberArray (tl a)).

(** [a.map((v, i) => f v i)], [Array.from({length: n}, (_, i) => i)]. *)
Definition array_mapi (f : number -> nat -> number) (r : ref) : St ref :=
  a <~ read_numbers r ;; alloc (NumberArray (mapi f a)).

Definition array_from (n : nat) : St ref := alloc (NumberArray (iota n)).

(** [a.reduce(f, init)], without and with the index, and [a[i]]. *)
Definition array_reduce (f : number -> number -> number) (init : number)
    (r : ref) : St number :=
  a <~ read_numbers r ;; ret (fold_left f a init).

Definition array_reducei (f : number -> number -> nat -> number) (init : number)
    (r : ref) : St number :=
  a <~ read_numbers r ;; ret (reducei f a init).

Definition array_get (r : ref) (i : Z) : St number :=
  a <~ read_numbers r ;; ret (get a i).

Section FastPredictStore.
Context {M : MathLib}.

(** [fastPredictStock], statement by statement, on a reference to the array
    of points. *)
Definition fastPredictStock_store (stockData : ref) : St (Result Prediction) :=
  len <~ array_length stockData ;;
  if (len <? 10)%nat then ret (Throw "Insufficient data for prediction"%string)
  else
    prices <~ array_map_price stockData ;;
    plen <~ array_length prices ;;
    currentPrice <~ array_get prices (Z.of_nat plen - 1) ;;
    last5 <~ array_slice_last 5 prices ;;
    sum5 <~ array_reduce add (Fin 0) last5 ;;
    let shortMA := (sum5 / Fin 5)%js in
    last20 <~ array_slice_last 20 prices ;;
    sum20 <~ array_reduce add (Fin 0) last20 ;;
    let longMA := (sum20 / Fin 20)%js in
    recentPrices <~ array_slice_last 10 prices ;;
    nlen <~ array_length recentPrices ;;
    let n := of_nat nlen in
    x <~ array_from nlen ;;
    sumX <~ array_reduce add (Fin 0) x ;;
    sumY <~ array_reduce add (Fin 0) recentPrices ;;
    recent <~ read_numbers recentPrices ;;
    sumXY <~ array_reducei
               (fun acc xi i => acc + xi * get recent (Z.of_nat i))%js (Fin 0) x ;;
    sumXX <~ array_reducei (fun acc xi _ => acc + xi * xi)%js (Fin 0) x ;;
    let slope := ((n * sumXY - sumX * sumY) / (n * sumXX - sumX * sumX))%js in
    let intercept := ((sumY - slope * sumX) / n)%js in
    let nextPrice := (slope * n + intercept)%js in
    rest <~ array_slice_1 prices ;;
    all <~ read_numbers prices ;;
    returns <~ array_mapi
                 (fun price i => (price - get all (Z.of_nat i))
                                 / get all (Z.of_nat i))%js rest ;;
    rlen <~ array_length returns ;;
    sumR <~ array_reduce add (Fin 0) returns ;;
    let avgReturn := (sumR / of_nat rlen)%js in
    sumSq <~ array_reduce (fun sum ret => sum + pow2 (ret - avgReturn))%js
               (Fin 0) returns ;;
    let variance := (sumSq / of_nat rlen)%js in
    let volatility := Math_sqrt variance in
    let change := (nextPrice - currentPrice)%js in
    let changePercent := (change / currentPrice * Fin 100)%js in
    let trendStrength := Math_abs slope in
    let maConsistency := (Math_abs (shortMA - longMA) / currentPrice)%js in
    let baseConfidence :=
      Math_min (Fin 90) (trendStrength * Fin 1000 + maConsistency * Fin 100)%js in
    let volatilityPenalty := Math_min (Fin 30) (volatility * Fin 500)%js in
    let confidence :=
      Math_max (Fin 45) (Math_min (Fin 90) (baseConfidence - volatilityPenalty)%js) in
    ret (Ok {| currentPrice := toFixed 2 currentPrice;
               predictedPrice := toFixed 2 nextPrice;
               confidence := toFixed 1 confidence;
               trend := classify_trend change currentPrice;
               change := toFixed 2 change;
               changePercent := toFixed 2 changePercent |}).

End FastPredictStore.

(* ================================================================= *)
(** ** The page component: the inputs of the chart *)

(** [Math.random()]: [Math_random k] is what the call number [k] of a run
    returns, a number that is at least 0 and less than 1. *)
Class RandomSource : Type := {
  Math_random : nat -> Q;
  Math_random_range : forall k, 0 <= Math_random k /\ Math_random k < 1
}.

Section Historical.
Context {R : RandomSource}.

(** What the loop of [generateHistoricalPredictions] pushes at index [i];
    the iteration makes one call of [Math.random]. *)
Definition historical_prediction (prices : list number) (i : nat) : number :=
  if (i <? 5)%nat then
    (get prices (Z.of_nat i) * (Fin 0.99 + Fin (Math_random i) * Fin 0.02))%js
  else
    let ma5 := (sum (slice (i - 5) i prices) / Fin 5)%js in
    let error := ((Fin (Math_random i) - Fin 0.5) * Fin 0.03)%js in
    (ma5 * (Fin 1 + error))%js.

(** [for (let i = 0; i < prices.length; i++) predictions.push(...)], with the
    number of iterations that remain. *)
Fixpoint historical_loop (prices : list number) (remaining i : nat)
    (predictions : list number) : list number :=
  match remaining with
  | O => predictions
  | S remaining' =>
      historical_loop prices remaining' (S i)
        (predictions ++ [historical_prediction prices i])
  end.

Definition generateHistoricalPredictions (stockData : list StockPoint)
    : list number :=
  if (length stockData =? 0)%nat then []
  else
    let prices := map price stockData in
    historical_loop prices (length prices) 0 [].

End Historical.

(** The data that [StockChart] hands to the chart library: the labels and
    the three datasets, where [null] marks a point that is not drawn. *)
Record ChartData : Type := {
  labels : list string;
  actualDataset : list (option number);
  historicalDataset : list (option number);
  futureDataset : list (option number)
}.

Definition StockChart
    (dates : list string) (actualPrices predictedPrices : list number)
    (futureDates : list string) (futurePredictions : list number) : ChartData :=
  {| labels := dates ++ futureDates;
     actualDataset :=
       map Some actualPrices ++ repeat None (length futureDates);
     historicalDataset :=
       map Some predictedPrices ++ repeat None (length futureDates);
     futureDataset :=
       repeat None (length dates) ++ map Some futurePredictions |}.

(** The properties that the page passes to [StockChart]; [nextDate] is the
    string that [getNextTradingDay] returns for the last date. *)
Definition page_chart {R : RandomSource}
    (stockData : list StockPoint) (prediction : option Prediction)
    (nextDate : string) : ChartData :=
  StockChart
    (map date stockData)
    (map price stockData)
    (match prediction with
     | Some _ => generateHistoricalPredictions stockData
     | None => []
     end)
    (match prediction with Some _ => [nextDate] | None => [] end)
    (match prediction with Some p => [predictedPrice p] | None => [] end).

(* ================================================================= *)
(** ** The stock route of the server *)

(** The part of a chart response that the route reads: [result.timestamp]
    and [result.indicators.quote[0].close], each of which may be missing;
    a closing price may be [null]. *)
Record ChartResult : Type := {
  timestamp : option (list Z);
  close : option (list (option number))
}.

(** The data provider and the date library.  [axios_get_chart symbol] is
    [chart.result[0]] of the response for the symbol, or [None] when the
    request throws or the response has no such result;
    [iso_date t] is [new Date(t * 1000).toISOString().split('T')[0]], or
    [None] when the date is invalid and [toISOString] throws. *)
Class YahooFinance : Type := {
  axios_get_chart : string -> option ChartResult;
  iso_date : Z -> option string
}.

Section Route.
Context {Y : YahooFinance}.

(** The loop of [fetchFromYahooFinance] over two arrays of one length;
    [None] when a date conversion throws. *)
Fixpoint yahoo_dataPoints (timestamps : list Z) (prices : list (option number))
    : option (list StockPoint) :=
  match timestamps, prices with
  | t :: timestamps', p :: prices' =>
      match p with
      | Some v =>
          if isNaN v then yahoo_dataPoints timestamps' prices'
          else
            match iso_date t with
            | Some d =>
                option_map (cons {| date := d; price := toFixed 2 v |})
                           (yahoo_dataPoints timestamps' prices')
            | None => None
            end
      | None => yahoo_dataPoints timestamps' prices'
      end
  | _, _ => Some []
  end.

(** [fetchFromYahooFinance]: the points, or [null]. *)
Definition fetchFromYahooFinance (symbol : string) : option (list StockPoint) :=
  match axios_get_chart symbol with
  | Some result =>
      match timestamp result, close result with
      | Some timestamps, Some prices =>
          if (length timestamps =? length prices)%nat then
            match yahoo_dataPoints timestamps prices with
            | Some dataPoints =>
                if (20 <? length dataPoints)%nat then Some dataPoints else None
            | None => None
            end
          else None
      | _, _ => None
      end
  | None => None
  end.

(** A template literal prints a missing exchange as [undefined]. *)
Definition show_exchange (exchange : option string) : string :=
  match exchange with Some e => e | None => "undefined" end.

Definition is_NSE (exchange : option string) : bool :=
  match exchange with Some e => String.eqb e "NSE" | None => false end.

Definition alternative_formats (symbol : string) (exchange : option string)
    : list string :=
  [ (symbol ++ "." ++ (if is_NSE exchange then "NS" else "BO"))%string;
    (symbol ++ "." ++ show_exchange exchange)%string;
    symbol ].

(** [for (const format of formats)] of [tryAlternativeFormats]. *)
Fixpoint try_formats (formats : list string) : option (list StockPoint) :=
  match formats with
  | [] => None
  | format :: formats' =>
      match fetchFromYahooFinance format with
      | Some data =>
          if (20 <? length data)%nat then Some data else try_formats formats'
      | None => try_formats formats'
      end
  end.

Definition tryAlternativeFormats (symbol : string) (exchange : option string)
    : option (list StockPoint) :=
  try_formats (alternative_formats symbol exchange).

(** [s.split('.')]. *)
Fixpoint split_dot (s : string) : list string :=
  match s with
  | EmptyString => [EmptyString]
  | String c s' =>
      if Ascii.eqb c "."%char then EmptyString :: split_dot s'
      else
        match split_dot s' with
        | part :: parts => String c part :: parts
        | [] => [String c EmptyString]
        end
  end.

(** The two answers of the route: the JSON of a success, and the one of
    status 503.  (No statement of the handler throws in this model, so the
    answer of status 500 does not occur.) *)
Inductive ApiResponse : Type :=
| ApiSuccess (stockData : list StockPoint) (symbol : string)
| ApiUnavailable (symbol : string).

(** [GET]; [param] is [searchParams.get('symbol')]. *)
Definition GET (param : option string) : ApiResponse :=
  let symbol :=
    match param with
    | Some s => if String.eqb s "" then "RELIANCE.NSE"%string else s
    | None => "RELIANCE.NSE"%string
    end in
  let parts := split_dot symbol in
  let stockSymbol := nth 0 parts ""%string in
  let exchange := nth_error parts 1 in
  let yahooSymbol :=
    if is_NSE exchange then (stockSymbol ++ ".NS")%string
    else (stockSymbol ++ ".BO")%string in
  let stockData :=
    match fetchFromYahooFinance yahooSymbol with
    | Some data => Some data
    | None => tryAlternativeFormats stockSymbol exchange
    end in
  match stockData with
  | Some data =>
      if (20 <? length data)%nat then ApiSuccess data symbol
      else ApiUnavailable symbol
  | None => ApiUnavailable symbol
  end.

End Route.

(* ================================================================= *)
(** ** The code over binary64 *)

(** The numbers of the language are the doubles of IEEE 754.  [Double]
    embeds the same functions over them: a double is a [spec_float], and
    the four operations and the square root are those of [SpecFloat] at
    precision 53 and exponent bound 1024, which round to the nearest double,
    ties to even, overflow to an infinity and underflow to a subnormal or to
    zero.  Comparisons compare the values of the doubles, as IEEE 754 says.
    [Math.pow(x, 2)] is taken as the product [x * x], and [Math.min] and
    [Math.max] return their first argument when both are zeros. *)

Module Double.

Definition double : Type := spec_float.

Definition prec : Z := 53.
Definition emax : Z := 1024.

Definition add (x y : double) : double := SFadd prec emax x y.
Definition sub (x y : double) : double := SFsub prec emax x y.
Definition mul (x y : double) : double := SFmul prec emax x y.
Definition div (x y : double) : double := SFdiv prec emax x y.
Definition neg (x : double) : double := SFopp x.
Definition Math_sqrt (x : double) : double := SFsqrt prec emax x.
Definition Math_abs (x : double) : double := SFabs x.
Definition pow2 (x : double) : double := mul x x.

Definition nan : double := S754_nan.

(** The integer [n] as a double (exact up to 53 bits). *)
Definition of_Z (n : Z) : double := binary_normalize prec emax n 0 false.
Definition of_nat (n : nat) : double := of_Z (Z.of_nat n).

(** A decimal literal of the source: the double nearest to it. *)
Definition lit (q : Q) : double := div (of_Z (Qnum q)) (of_Z (Zpos (Qden q))).

(** The value of a double: an exact rational, or a special value. *)
Definition value (x : double) : number :=
  match x with
  | S754_zero _ => Fin 0
  | S754_infinity s => if s then NInf else PInf
  | S754_nan => NaN
  | S754_finite s m e => Fin (inject_Z (cond_Zopp s (Zpos m)) * 2 ^ e)
  end.

Definition isNaN (x : double) : bool := isNaN (value x).
Definition lt (x y : double) : bool := lt (value x) (value y).
Definition gt (x y : double) : bool := lt y x.
Definition strict_eq (x y : double) : bool := strict_eq (value x) (value y).

Definition Math_min (x y : double) : double :=
  if isNaN x || isNaN y then nan else if lt y x then y else x.

Definition Math_max (x y : double) : double :=
  if isNaN x || isNaN y then nan else if lt x y then y else x.

Definition Math_min_list (l : list double) : double :=
  fold_left Math_min l (S754_infinity false).
Definition Math_max_list (l : list double) : double :=
  fold_left Math_max l (S754_infinity true).

(** [parseFloat(x.toFixed(d))].  [toFixed] prints the decimal [k / 10^d]
    nearest to the value of [x], the larger one in magnitude on a tie, and
    [parseFloat] reads the double nearest to that decimal: the quotient of
    [k] by [10^d], both exact as doubles when [k] has at most 53 bits.  A
    larger [k] is read back as [x] itself, the doubles of that size being
    further apart than [10^-d]. *)
Definition decimal (d : nat) (k : Z) : double := div (of_Z k) (of_Z (pow10 d)).

Definition toFixed (d : nat) (x : double) : double :=
  match value x with
  | Fin q =>
      let k := Qfloor (Qabs q * inject_Z (pow10 d) + (1 # 2)) in
      if (2 ^ 53 <=? k)%Z then x
      else if Qle_bool 0 q then decimal d k else neg (decimal d k)
  | _ => x
  end.

Declare Scope double_scope.
Delimit Scope double_scope with double.
Infix "+" := add : double_scope.
Infix "-" := sub : double_scope.
Infix "*" := mul : double_scope.
Infix "/" := div : double_scope.

(** [Math.sin], [Math.cos] and [Math.PI] are library values. *)
Class MathLib : Type := {
  Math_sin : double -> double;
  Math_cos : double -> double;
  Math_PI : double
}.

(** *** Arrays *)

Definition get (a : list double) (i : Z) : double :=
  if (i <? 0)%Z then nan else nth (Z.to_nat i) a nan.

Definition sum (a : list double) : double := fold_left add a (lit 0).

Fixpoint reduce_from {A} (f : double -> A -> nat -> double)
    (i : nat) (a : list A) (acc : double) : double :=
  match a with
  | [] => acc
  | v :: a' => reduce_from f (S i) a' (f acc v i)
  end.

Definition reducei {A} (f : double -> A -> nat -> double)
    (a : list A) (init : double) : double :=
  reduce_from f 0 a init.

Definition iota (n : nat) : list double := map of_nat (seq 0 n).

(** *** The statistical predictor *)

Record StockPoint : Type := { date : string; price : double }.

Record Prediction : Type := {
  currentPrice : double;
  predictedPrice : double;
  confidence : double;
  trend : Trend;
  change : double;
  changePercent : double
}.

Definition classify_trend (change currentPrice : double) : Trend :=
  if lt (Math_abs change) (currentPrice * lit 0.005)%double then stable
  else if gt change (lit 0) then up else down.

Definition fast_currentPrice (prices : list double) : double :=
  get prices (Z.of_nat (length prices) - 1).

Definition fast_shortMA (prices : list double) : double :=
  (sum (slice_last 5 prices) / lit 5)%double.

Definition fast_longMA (prices : list double) : double :=
  (sum (slice_last 20 prices) / lit 20)%double.

Definition fast_slope (recentPrices : list double) : double :=
  let n := of_nat (length recentPrices) in
  let x := iota (length recentPrices) in
  let sumX := sum x in
  let sumY := sum recentPrices in
  let sumXY :=
    reducei (fun acc xi i => acc + xi * get recentPrices (Z.of_nat i))%double
            x (lit 0) in
  let sumXX := reducei (fun acc xi _ => acc + xi * xi)%double x (lit 0) in
  ((n * sumXY - sumX * sumY) / (n * sumXX - sumX * sumX))%double.

Definition fast_nextPrice (recentPrices : list double) : double :=
  let n := of_nat (length recentPrices) in
  let sumX := sum (iota (length recentPrices)) in
  let sumY := sum recentPrices in
  let slope := fast_slope recentPrices in
  let intercept := ((sumY - slope * sumX) / n)%double in
  (slope * n + intercept)%double.

Definition returns_of (prices : list double) : list double :=
  mapi (fun price i => (price - get prices (Z.of_nat i))
                       / get prices (Z.of_nat i))%double
       (tl prices).

Definition volatility_of (prices : list double) : double :=
  let returns := returns_of prices in
  let avgReturn := (sum returns / of_nat (length returns))%double in
  let variance :=
    (fold_left (fun s ret => s + pow2 (ret - avgReturn))%double returns (lit 0)
     / of_nat (length returns))%double in
  Math_sqrt variance.

(** [baseConfidence - volatilityPenalty], the expression that the last line
    of the confidence clamps. *)
Definition fast_confidence_unclamped (prices : list double) : double :=
  let currentPrice := fast_currentPrice prices in
  let shortMA := fast_shortMA prices in
  let longMA := fast_longMA prices in
  let slope := fast_slope (slice_last 10 prices) in
  let volatility := volatility_of prices in
  let trendStrength := Math_abs slope in
  let maConsistency := (Math_abs (shortMA - longMA) / currentPrice)%double in
  let baseConfidence :=
    Math_min (lit 90) (trendStrength * lit 1000 + maConsistency * lit 100)%double in
  let volatilityPenalty := Math_min (lit 30) (volatility * lit 500)%double in
  (baseConfidence - volatilityPenalty)%double.

Definition fast_confidence (prices : list double) : double :=
  Math_max (lit 45) (Math_min (lit 90) (fast_confidence_unclamped prices)).

Definition fastPredictStock (stockData : list StockPoint) : Result Prediction :=
  if (length stockData <? 10)%nat then
    Throw "Insufficient data for prediction"%string
  else
    let prices := map price stockData in
    let currentPrice := fast_currentPrice prices in
    let nextPrice := fast_nextPrice (slice_last 10 prices) in
    let change := (nextPrice - currentPrice)%double in
    let changePercent := (change / currentPrice * lit 100)%double in
    let confidence := fast_confidence prices in
    Ok {| currentPrice := toFixed 2 currentPrice;
          predictedPrice := toFixed 2 nextPrice;
          confidence := toFixed 1 confidence;
          trend := classify_trend change currentPrice;
          change := toFixed 2 change;
          changePercent := toFixed 2 changePercent |}.

Definition calculateVolatility (prices : list double) : double :=
  if (length prices <? 2)%nat then lit 0 else volatility_of prices.

(** *** [src/lib/ml-utils.ts] *)

Definition TimeSeries : Type := list (string * double).

Fixpoint own_set (acc : TimeSeries) (k : string) (v : double) : TimeSeries :=
  match acc with
  | [] => [(k, v)]
  | (k', v') :: acc' =>
      if String.eqb k' k then (k', v) :: acc' else (k', v') :: own_set acc' k v
  end.

Definition obj_set (acc : TimeSeries) (k : string) (v : double) : TimeSeries :=
  if String.eqb k "__proto__" then acc else own_set acc k v.

Fixpoint obj_get (o : TimeSeries) (k : string) : double :=
  match o with
  | [] => nan
  | (k', v) :: o' => if String.eqb k' k then v else obj_get o' k
  end.

Definition sorted_keys (o : TimeSeries) : list string :=
  fold_right insert_key [] (map fst o).

Record StockData : Type := {
  dates : list string;
  prices : list double;
  xs : list double
}.

Fixpoint parse_prices (o : TimeSeries) (ds : list string) : Result (list double) :=
  match ds with
  | [] => Ok []
  | d :: ds' =>
      let price := obj_get o d in
      if isNaN price then Throw ("Invalid price data for date " ++ d)%string
      else rest <- parse_prices o ds' ;; Ok (price :: rest)
  end.

Definition processStockData (timeSeries : option TimeSeries) : Result StockData :=
  match timeSeries with
  | None => Throw "Invalid stock data format"%string
  | Some ts =>
      let dates := sorted_keys ts in
      prices <- parse_prices ts dates ;;
      if (length prices =? 0)%nat then Throw "No valid price data found"%string
      else if existsb isNaN prices then
        Throw "Price data contains invalid values"%string
      else
        Ok {| dates := dates; prices := prices; xs := iota (length dates) |}
  end.

Record NormalizationParams : Type := {
  xMin : double; xMax : double; yMin : double; yMax : double
}.

Section Features.
Context {M : MathLib}.
Variable params : NormalizationParams.

Definition xNorm_of (x : double) : double :=
  ((x - xMin params) / (xMax params - xMin params))%double.

Definition ma3_of (prices : list double) (index : Z) : double :=
  if (2 <=? index)%Z then
    ((get prices index + get prices (index - 1) + get prices (index - 2))
     / lit 3)%double
  else get prices index.

Definition window5 (prices : list double) (index : Z) : list double :=
  slice (Z.to_nat (Z.max 0 (index - 4))) (Z.to_nat (index + 1)) prices.

Definition ma5_of (prices : list double) (index : Z) : double :=
  if (4 <=? index)%Z then
    (sum (window5 prices index) / of_Z (Z.min 5 (index + 1)))%double
  else get prices index.

Definition momentum_of (prices : list double) (index : Z) : double :=
  if (0 <? index)%Z then (get prices index - get prices (index - 1))%double
  else lit 0.

Definition feature_volatility_of (prices : list double) (index : Z) : double :=
  let ma5 := ma5_of prices index in
  if (5 <=? index)%Z then
    Math_sqrt
      (fold_left (fun sum p => sum + pow2 (p - ma5))%double
                 (window5 prices index) (lit 0)
       / of_Z (Z.min 5 (index + 1)))%double
  else lit 0.

Definition createAdvancedFeatures
    (x : double) (prices : list double) (index : Z) : list double :=
  let xNorm := xNorm_of x in
  let ma3 := ma3_of prices index in
  let ma5 := ma5_of prices index in
  let momentum := momentum_of prices index in
  let volatility := feature_volatility_of prices index in
  let range := (yMax params - yMin params)%double in
  [ xNorm;
    (xNorm * xNorm)%double;
    Math_sin (xNorm * lit 2 * Math_PI)%double;
    Math_cos (xNorm * lit 2 * Math_PI)%double;
    Math_sin (xNorm * lit 4 * Math_PI)%double;
    ((ma3 - yMin params) / range)%double;
    ((ma5 - yMin params) / range)%double;
    (momentum / range)%double;
    (volatility / range)%double ].
End Features.

Record Model : Type := {
  forward : list double -> double;
  normalizationParams : option NormalizationParams;
  model_createAdvancedFeatures :
    option (double -> list double -> Z -> list double);
  trainingPrices : option (list double)
}.

Class TensorFlow : Type := {
  fit : list (list double) -> list double -> Promise (list double -> double)
}.

Section MlUtils.
Context {M : MathLib} {T : TensorFlow}.

Definition trainLinearRegressionModel (xs ys : list double) : Promise Model :=
  let params := {| xMin := Math_min_list xs; xMax := Math_max_list xs;
                   yMin := Math_min_list ys; yMax := Math_max_list ys |} in
  let xsFeatures := mapi (fun x i => createAdvancedFeatures params x ys (Z.of_nat i)) xs in
  let ysNorm := map (fun y => (y - yMin params) / (yMax params - yMin params))%double ys in
  match fit xsFeatures ysNorm with
  | Resolves ms net =>
      Resolves ms {| forward := net;
                     normalizationParams := Some params;
                     model_createAdvancedFeatures :=
                       Some (createAdvancedFeatures params);
                     trainingPrices := Some ys |}
  | Rejects ms msg => Rejects ms msg
  | Pending => Pending
  end.

Definition bound_output (params : NormalizationParams) (val : double) : double :=
  Math_max (yMin params * lit 0.8)%double (Math_min (yMax params * lit 1.2)%double val).

Definition predictNextDay (model : Model) (nextDayIndex : Z) : Result double :=
  match normalizationParams model, model_createAdvancedFeatures model,
        trainingPrices model with
  | Some params, Some createFeatures, Some trainingPrices =>
      let features :=
        createFeatures (of_Z nextDayIndex) trainingPrices
          (Z.min nextDayIndex (Z.of_nat (length trainingPrices) - 1)) in
      let normalizedResult := forward model features in
      let result :=
        (normalizedResult * (yMax params - yMin params) + yMin params)%double in
      Ok (if isNaN result then yMin params else bound_output params result)
  | _, _, _ => Throw "Model missing required parameters"%string
  end.

Definition or_else (a b : double) : double :=
  if isNaN a || strict_eq a (lit 0) then b else a.

Definition getPredictionsForData (model : Model) (xs : list double)
    : Result (list double) :=
  match normalizationParams model, model_createAdvancedFeatures model,
        trainingPrices model with
  | Some params, Some createFeatures, Some trainingPrices =>
      let xsFeatures :=
        mapi (fun x i => createFeatures x trainingPrices (Z.of_nat i)) xs in
      let normalizedResults := map (forward model) xsFeatures in
      let result :=
        map (fun val => val * (yMax params - yMin params) + yMin params)%double
            normalizedResults in
      Ok (mapi (fun val i =>
                  if isNaN val then
                    or_else (get trainingPrices (Z.of_nat i))
                            ((yMin params + yMax params) / lit 2)%double
                  else bound_output params val)
               result)
  | _, _, _ => Throw "Model missing required parameters"%string
  end.

Definition totalSumSquares (actual : list double) : double :=
  let actualMean := (sum actual / of_nat (length actual))%double in
  fold_left (fun sum val => sum + pow2 (val - actualMean))%double actual (lit 0).

Definition residualSumSquares (actual predicted : list double) : double :=
  reducei (fun sum val i => sum + pow2 (val - get predicted (Z.of_nat i)))%double
          actual (lit 0).

Definition calculateR2Score (actual predicted : list double) : Result double :=
  if negb (length actual =? length predicted)%nat then Throw length_mismatch
  else
    let hasNaNActual := existsb isNaN actual in
    let hasNaNPredicted := existsb isNaN predicted in
    if hasNaNActual || hasNaNPredicted then Ok (lit 0)
    else
      let totalSumSquares := totalSumSquares actual in
      let residualSumSquares := residualSumSquares actual predicted in
      if strict_eq totalSumSquares (lit 0) then Ok (lit 0)
      else
        let r2 := (lit 1 - residualSumSquares / totalSumSquares)%double in
        Ok (if isNaN r2 then lit 0 else r2).

Definition calculateMSE (actual predicted : list double) : Result double :=
  if negb (length actual =? length predicted)%nat then Throw length_mismatch
  else
    let hasNaNActual := existsb isNaN actual in
    let hasNaNPredicted := existsb isNaN predicted in
    if hasNaNActual || hasNaNPredicted then Ok (lit 0)
    else
      let sumSquaredErrors := residualSumSquares actual predicted in
      let mse := (sumSquaredErrors / of_nat (length actual))%double in
      Ok (if isNaN mse then lit 0 else mse).
End MlUtils.

(** *** The enhanced predictor *)

Section Enhanced.
Context {M : MathLib} {T : TensorFlow}.

Definition last_price (stockData : list StockPoint) : Result double :=
  match nth_error stockData (length stockData - 1) with
  | Some d => Ok (price d)
  | None => Throw "TypeError"%string
  end.

Definition enhanced_try (stockData : list StockPoint) : Result Prediction :=
  processedData <-
    processStockData
      (Some (fold_left (fun acc item => obj_set acc (date item) (price item))
                       stockData [])) ;;
  model <- race_timeout 8000%N "ML timeout"
             (trainLinearRegressionModel (xs processedData) (prices processedData)) ;;
  predictions <- getPredictionsForData model (xs processedData) ;;
  nextPrice <- predictNextDay model (Z.of_nat (length (xs processedData))) ;;
  r2Score <- calculateR2Score (prices processedData) predictions ;;
  mse <- calculateMSE (prices processedData) predictions ;;
  currentPrice <- last_price stockData ;;
  let change := (nextPrice - currentPrice)%double in
  let changePercent := (change / currentPrice * lit 100)%double in
  let baseConfidence := Math_max (lit 0) (Math_min (lit 100) (r2Score * lit 100)%double) in
  let mseConfidence := Math_max (lit 0) (lit 100 - mse / currentPrice * lit 100)%double in
  let volatility := calculateVolatility (prices processedData) in
  let volatilityPenalty := Math_min (lit 20) (volatility * lit 10)%double in
  let confidence :=
    Math_max (lit 40)
      (Math_min (lit 95)
         (baseConfidence * lit 0.6 + mseConfidence * lit 0.4 - volatilityPenalty)%double) in
  Ok {| currentPrice := toFixed 2 currentPrice;
        predictedPrice := toFixed 2 nextPrice;
        confidence := toFixed 1 confidence;
        trend := classify_trend change currentPrice;
        change := toFixed 2 change;
        changePercent := toFixed 2 changePercent |}.

Definition enhancedPredictStock (stockData : list StockPoint) : Result Prediction :=
  fastResult <- fastPredictStock stockData ;;
  try_catch (enhanced_try stockData) (Ok fastResult).
End Enhanced.

End Double.

(* ================================================================= *)
(** ** Reference definitions and instances *)

(** The mean of the last [min(k, length)] elements, as the specification
    words the long moving average (with [k = 20]). *)
Definition spec_mean_last (k : nat) (a : list number) : number :=
  (sum (slice_last k a) / of_nat (Nat.min k (length a)))%js.

(** The mean of the prefix ending at [index], capped at five points, as the
    specification words the warm-up of the five-day average. *)
Definition spec_prefix_mean5 (prices : list number) (index : Z) : number :=
  (sum (firstn (Z.to_nat (index + 1)) prices) / of_Z (Z.min 5 (index + 1)))%js.

(** Strictly increasing arrays, with [<] of the language. *)
Fixpoint strictly_increasing (a : list number) : Prop :=
  match a with
  | x :: ((y :: _) as a') => lt x y = true /\ strictly_increasing a'
  | _ => True
  end.


(** Numbers that are not negative: what a sum of squares can be. *)
Definition nonneg_or_nan (x : number) : Prop :=
  match x with
  | Fin q => 0 <= q
  | PInf | NaN => True
  | NInf => False
  end.

(** Not [NaN] and at most [hi]. *)
Definition at_most (hi : Q) (x : number) : Prop :=
  match x with
  | Fin q => q <= hi
  | NInf => True
  | PInf | NaN => False
  end.

(** Finite numbers. *)
Definition finite (x : number) : Prop := exists q, x = Fin q.

(** A computation that only allocates: the final store is the initial one
    followed by fresh objects. *)
Definition allocates_only {A} (m : St A) : Prop :=
  forall h, exists fresh, snd (m h) = h ++ fresh.

(** A computable [MathLib], to run the model on concrete inputs: the square
    root is rounded down to a fraction of the same denominator, and the
    trigonometric functions, which only feed the network, are constant. *)
Definition sqrt_down (x : number) : number :=
  match x with
  | Fin q =>
      if Qle_bool 0 q then Fin (Z.sqrt (Qnum q * Zpos (Qden q)) # Qden q)
      else NaN
  | PInf => PInf
  | _ => NaN
  end.

#[export, refine] Instance SampleMath : MathLib := {|
  Math_sqrt := sqrt_down;
  Math_sin := fun _ => Fin 0;
  Math_cos := fun _ => Fin 1;
  Math_PI := Fin (355 # 113)
|}.
Proof.
  intros q Hq. unfold sqrt_down.
  apply Qle_bool_iff in Hq as ->.
  eexists; split; [reflexivity|].
  unfold Qle; simpl.
  pose proof (Z.sqrt_nonneg (Qnum q * Zpos (Qden q))). lia.
Defined.

(** Three libraries: one whose network always answers one half after 100 ms,
    one that rejects, one that never settles. *)
Definition tf_half : TensorFlow :=
  {| fit := fun _ _ => Resolves 100 (fun _ => Fin (1 # 2)) |}.
Definition tf_rejecting : TensorFlow :=
  {| fit := fun _ _ => Rejects 5 "training failed" |}.
Definition tf_hanging : TensorFlow :=
  {| fit := fun _ _ => Pending |}.

(** Series for examples: the prices [z] on consecutive days. *)
Definition day (i : nat) : string :=
  String (Ascii.ascii_of_nat (65 + i)) EmptyString.

Definition series_of (zs : list Z) : list StockPoint :=
  mapi (fun z i => {| date := day i; price := of_Z z |}) zs.

Definition rising_100 : list Z := [100; 101; 102; 103; 104; 105; 106; 107; 108; 109]%Z.
Definition rising_1000 : list Z :=
  [1000; 1001; 1002; 1003; 1004; 1005; 1006; 1007; 1008; 1009]%Z.
Definition jump_1000 : list Z := [1; 2; 3; 4; 5; 6; 7; 8; 9; 1000]%Z.

(** The object that [enhancedPredictStock] builds from the series before it
    calls [processStockData]. *)
Definition series_object (stockData : list StockPoint) : TimeSeries :=
  fold_left (fun acc item => obj_set acc (date item) (price item)) stockData [].

(** Dates in ascending order of their code units. *)
Definition ascending (ks : list string) : Prop :=
  Sorted (fun a b => String.leb a b = true) ks.

(** Numbers that are not negative and not [NaN]. *)
Definition nonnegative (x : number) : Prop :=
  match x with
  | Fin q => 0 <= q
  | PInf => True
  | NInf | NaN => False
  end.

(** A source of random numbers for examples: every call returns one half. *)
#[export, refine] Instance half_random : RandomSource := {|
  Math_random := fun _ => 1 # 2
|}.
Proof. intros k. split; lra. Defined.

(** Strings without a dot. *)
Fixpoint dot_free (s : string) : bool :=
  match s with
  | EmptyString => true
  | String c s' => negb (Ascii.eqb c "."%char) && dot_free s'
  end.

(** A point that the route can return: its price is a number with at most
    two decimals. *)
Definition clean_point (p : StockPoint) : Prop :=
  isNaN (price p) = false /\ number_eq (toFixed 2 (price p)) (price p).

(** A data provider for examples: it knows two symbols, each with 22 daily
    closing prices, the first of which is missing. *)
Definition sample_closes (n : nat) : list (option number) :=
  None :: map (fun i => Some (Fin (100 + inject_Z (Z.of_nat i) / 3))) (seq 0 n).

Definition sample_yahoo : YahooFinance := {|
  axios_get_chart := fun symbol =>
    if String.eqb symbol "TCS.NSE" then
      Some {| timestamp := Some (map Z.of_nat (seq 0 22));
              close := Some (sample_closes 21) |}
    else if String.eqb symbol "INFY" then
      Some {| timestamp := Some (map Z.of_nat (seq 0 22));
              close := Some (sample_closes 21) |}
    else None;
  iso_date := fun t => Some (day (Z.to_nat t))
|}.










(** Series of doubles for examples: integer prices, decimal prices. *)
Definition doubles_of (zs : list Z) : list Double.StockPoint :=
  mapi (fun z i => {| Double.date := day i; Double.price := Double.of_Z z |}) zs.

Definition decimals (qs : list Q) : list Double.double := map Double.lit qs.



(** Doubles that are neither [NaN] nor infinite. *)
Definition finite_double (x : Double.double) : Prop :=
  isFinite (Double.value x) = true.

(* ================================================================= *)
(** ** Numbers: basic facts *)

Lemma number_eq_refl x : number_eq x x.
Proof. destruct x; simpl; auto. reflexivity. Qed.

Lemma number_eq_sym x y : number_eq x y -> number_eq y x.
Proof. destruct x, y; simpl; auto. intros H; symmetry; exact H. Qed.

Lemma isFinite_inf_signed pos c : isFinite (inf_signed pos c) = false.
Proof. destruct pos, c; reflexivity. Qed.

(** A division by a zero is never finite. *)
Lemma div_by_zero_not_finite x d :
  d == 0 -> isFinite (x / Fin d)%js = false.
Proof.
  intros Hd. destruct x as [a| | |]; simpl.
  - apply Qeq_bool_iff in Hd as ->. apply isFinite_inf_signed.
  - destruct (Qle_bool 0 d); reflexivity.
  - destruct (Qle_bool 0 d); reflexivity.
  - reflexivity.
Qed.

(** A division by the difference of two equal numbers is never finite. *)
Lemma div_by_degenerate_range x hi lo :
  strict_eq hi lo = true -> isFinite (x / (hi - lo))%js = false.
Proof.
  destruct hi as [a| | |], lo as [b| | |]; cbn [strict_eq sub add neg];
    try discriminate; intros H.
  - apply div_by_zero_not_finite. apply Qeq_bool_iff in H. lra.
  - destruct x; reflexivity.
  - destruct x; reflexivity.
Qed.

Lemma slice_last_all {A} (k : nat) (a : list A) :
  (length a <= k)%nat -> slice_last k a = a.
Proof.
  intros H. unfold slice_last.
  replace (length a - k)%nat with 0%nat by lia. reflexivity.
Qed.

(* ================================================================= *)
(** ** The long moving average of the statistical predictor *)

(** With at most twenty prices, the long average is the sum of all of them
    divided by twenty. *)
Lemma fast_longMA_short (prices : list number) :
  (length prices <= 20)%nat -> fast_longMA prices = (sum prices / Fin 20)%js.
Proof.
  intros H. unfold fast_longMA. now rewrite slice_last_all.
Qed.

(** From twenty prices on, the long average is the mean of the last
    twenty. *)
Lemma fast_longMA_long (prices : list number) :
  (20 <= length prices)%nat -> fast_longMA prices = spec_mean_last 20 prices.
Proof.
  intros H. unfold fast_longMA, spec_mean_last.
  now rewrite Nat.min_l by exact H.
Qed.

(** C1.  On the ten prices 100, 101, ..., 109 the long moving average of
    [fastPredictStock] is 1045/20 = 52.25, while the mean of the last
    [min(20, 10)] prices, which the claim says it is, is 104.5: the sum is
    divided by the constant 20 whatever the length of the history. *)
Theorem C1_longMA_divides_by_20 :
  let prices := map of_Z rising_100 in
  number_eq (fast_longMA prices) (Fin 52.25) /\
  number_eq (spec_mean_last 20 prices) (Fin 104.5) /\
  ~ number_eq (fast_longMA prices) (spec_mean_last 20 prices).
Proof.
  cbv zeta. repeat split; vm_compute; congruence.
Qed.

(* ================================================================= *)
(** ** The feature extractor *)

(** C8, as the claim states it, fails: at index 1 of the prices 1, 3 the
    five-day average is the price 3, not the mean 2 of the two prices of the
    prefix. *)
Lemma C8_ma5_not_prefix_mean :
  let prices := [Fin 1; Fin 3] in
  ma5_of prices 1 = Fin 3 /\
  number_eq (spec_prefix_mean5 prices 1) (Fin 2) /\
  ~ number_eq (ma5_of prices 1) (spec_prefix_mean5 prices 1).
Proof.
  cbv zeta. repeat split; vm_compute; congruence.
Qed.

(** C8, amended.  For every series and every index below 4, the five-day
    average is the price at that index alone (the guard [index >= 4] sends
    the warm-up indices to [prices[index]]), and the seventh feature is that
    price normalized; at index 0 this is also the mean of the one-point
    prefix. *)
Theorem C8_ma5_warmup_is_price
    {M : MathLib} (params : NormalizationParams)
    (x : number) (prices : list number) (index : Z) :
  (index < 4)%Z ->
  ma5_of prices index = get prices index /\
  nth 6 (createAdvancedFeatures params x prices index) NaN
  = ((get prices index - yMin params) / (yMax params - yMin params))%js.
Proof.
  intros H.
  assert (E : ma5_of prices index = get prices index).
  { unfold ma5_of. destruct (4 <=? index)%Z eqn:E4; [lia | reflexivity]. }
  split; [exact E|]. unfold createAdvancedFeatures; cbn [nth]. now rewrite E.
Qed.

Lemma C8_ma5_warmup_witness :
  (1 < 4)%Z /\
  ma5_of [Fin 1; Fin 3] 1 = Fin 3.
Proof.
  split; [lia|].
  exact (proj1 (C8_ma5_warmup_is_price
                  {| xMin := Fin 0; xMax := Fin 1; yMin := Fin 1; yMax := Fin 3 |}
                  (Fin 1) [Fin 1; Fin 3] 1 ltac:(lia))).
Defined.

(** C2, as the claim states it, fails: with [xMax == xMin] and
    [yMax == yMin] (the parameters of a one-point series of price 5) the
    normalized index and the four price features are [NaN], not 0. *)
Lemma C2_no_degenerate_guard :
  let p := {| xMin := Fin 0; xMax := Fin 0; yMin := Fin 5; yMax := Fin 5 |} in
  strict_eq (xMax p) (xMin p) = true /\
  strict_eq (yMax p) (yMin p) = true /\
  xNorm_of p (Fin 0) = NaN /\
  forall M : MathLib,
    skipn 5 (createAdvancedFeatures p (Fin 0) [Fin 5] 0) = [NaN; NaN; NaN; NaN].
Proof.
  cbv zeta. repeat split.
Qed.

(** C2, amended.  The feature extractor has no degenerate-range guard: for
    every input, if [xMax == xMin] the normalized index is not a finite
    number ([NaN] or an infinity), and if [yMax == yMin] none of the four
    price-normalized features (3-day average, 5-day average, momentum,
    volatility) is a finite number. *)
Theorem C2_degenerate_range_not_finite
    {M : MathLib} (p : NormalizationParams)
    (x : number) (prices : list number) (index : Z) :
  (strict_eq (xMax p) (xMin p) = true -> isFinite (xNorm_of p x) = false) /\
  (strict_eq (yMax p) (yMin p) = true ->
   forall k, (5 <= k < 9)%nat ->
     isFinite (nth k (createAdvancedFeatures p x prices index) NaN) = false).
Proof.
  split.
  - intros H. unfold xNorm_of. now apply div_by_degenerate_range.
  - intros H k Hk. unfold createAdvancedFeatures.
    assert (Hc : (k = 5 \/ k = 6 \/ k = 7 \/ k = 8)%nat) by lia.
    destruct Hc as [-> | [-> | [-> | ->]]]; cbn [nth];
      now apply div_by_degenerate_range.
Qed.

Lemma C2_degenerate_range_witness :
  let p := {| xMin := Fin 0; xMax := Fin 0; yMin := Fin 5; yMax := Fin 5 |} in
  isFinite (xNorm_of p (Fin 3)) = false /\
  isFinite (nth 7 (createAdvancedFeatures p (Fin 3) [Fin 5; Fin 5] 1) NaN) = false.
Proof.
  cbv zeta.
  pose proof (C2_degenerate_range_not_finite
                {| xMin := Fin 0; xMax := Fin 0; yMin := Fin 5; yMax := Fin 5 |}
                (Fin 3) [Fin 5; Fin 5] 1) as [Hx Hy].
  split.
  - apply Hx. reflexivity.
  - apply Hy; [reflexivity | lia].
Defined.

(* ================================================================= *)
(** ** The evaluator *)

Lemma pow2_nonneg x : nonneg_or_nan (pow2 x).
Proof.
  destruct x as [q| | |]; simpl; auto.
  destruct (Qlt_le_dec q 0); nra.
Qed.

Lemma add_nonneg x y :
  nonneg_or_nan x -> nonneg_or_nan y -> nonneg_or_nan (x + y)%js.
Proof.
  destruct x, y; simpl; auto. intros; lra.
Qed.

Lemma fold_squares_nonneg {A} (f : A -> number) (l : list A) acc :
  nonneg_or_nan acc ->
  nonneg_or_nan (fold_left (fun s v => s + pow2 (f v))%js l acc).
Proof.
  revert acc. induction l as [|v l IH]; intros acc H; simpl; auto.
  apply IH, add_nonneg; auto using pow2_nonneg.
Qed.

Lemma reduce_squares_nonneg {A} (f : A -> nat -> number) (l : list A) i acc :
  nonneg_or_nan acc ->
  nonneg_or_nan (reduce_from (fun s v i => s + pow2 (f v i))%js i l acc).
Proof.
  revert i acc. induction l as [|v l IH]; intros i acc H; simpl; auto.
  apply IH, add_nonneg; auto using pow2_nonneg.
Qed.

Lemma totalSumSquares_nonneg actual : nonneg_or_nan (totalSumSquares actual).
Proof. apply fold_squares_nonneg. simpl; lra. Qed.

Lemma residualSumSquares_nonneg actual predicted :
  nonneg_or_nan (residualSumSquares actual predicted).
Proof.
  apply (reduce_squares_nonneg
           (fun val i => val - get predicted (Z.of_nat i))%js).
  simpl; lra.
Qed.

(** The last two lines of [calculateR2Score]. *)
Lemma r2_at_most_1 res tot :
  nonneg_or_nan res -> nonneg_or_nan tot -> strict_eq tot (Fin 0) = false ->
  at_most 1 (let r2 := (Fin 1 - res / tot)%js in if isNaN r2 then Fin 0 else r2).
Proof.
  destruct tot as [t| | |], res as [r| | |]; simpl; try tauto; try lra;
    intros Hr Ht Hz.
  - rewrite Hz; simpl.
    assert (0 < t).
    { apply Qeq_bool_neq in Hz. destruct (Qlt_le_dec 0 t); [assumption|].
      exfalso; apply Hz; lra. }
    assert (0 <= r / t) by (apply Qle_shift_div_l; lra).
    lra.
  - apply Qle_bool_iff in Ht as ->. exact I.
Qed.


Ltac case_ifs :=
  repeat match goal with
         | |- context [if ?c then _ else _] => destruct c eqn:?
         end.

(** The score of the predictions [k, 1] for the actual values [0, 1] is
    [1 - 2 k^2]. *)
Lemma r2_of_bad_prediction (k : Q) :
  exists q, calculateR2Score [Fin 0; Fin 1] [Fin k; Fin 1] = Ok (Fin q) /\
            q == 1 - 2 * k * k.
Proof.
  assert (Er : residualSumSquares [Fin 0; Fin 1] [Fin k; Fin 1]
               = Fin (0 + (0 + - k) * (0 + - k) + (1 + - 1) * (1 + - 1)))
    by reflexivity.
  assert (Et : exists t, totalSumSquares [Fin 0; Fin 1] = Fin t /\ t == 1 # 2).
  { eexists; split; [vm_compute; reflexivity | reflexivity]. }
  destruct Et as (t & Et & Ht).
  assert (Hz : Qeq_bool t 0 = false).
  { destruct (Qeq_bool t 0) eqn:E; [apply Qeq_bool_iff in E; lra | reflexivity]. }
  unfold calculateR2Score. cbn [length Nat.eqb negb existsb isNaN orb].
  rewrite Er, Et. cbn [strict_eq div sub add neg]. rewrite Hz. cbn [isNaN].
  eexists; split; [reflexivity|].
  rewrite Ht. field.
Qed.

(** C9.  For every pair of arrays of equal length, [calculateR2Score]
    returns a number that is not [NaN] and is at most 1; and no lower bound
    holds: below every rational bound there is a score of two arrays of
    equal length without [NaN]. *)
Theorem C9_r2_at_most_1_unbounded_below :
  (forall actual predicted,
      length actual = length predicted ->
      existsb isNaN actual = false -> existsb isNaN predicted = false ->
      exists r, calculateR2Score actual predicted = Ok r /\ at_most 1 r) /\
  (forall bound : Q,
      exists actual predicted q,
        length actual = length predicted /\
        existsb isNaN actual = false /\ existsb isNaN predicted = false /\
        calculateR2Score actual predicted = Ok (Fin q) /\ q < bound).
Proof.
  split.
  - intros actual predicted E Ha Hp. unfold calculateR2Score.
    rewrite E, Nat.eqb_refl, Ha, Hp. cbn [negb orb].
    destruct (strict_eq (totalSumSquares actual) (Fin 0)) eqn:Hz.
    + exists (Fin 0). split; [reflexivity|]. simpl; lra.
    + eexists; split; [reflexivity|].
      apply r2_at_most_1;
        auto using totalSumSquares_nonneg, residualSumSquares_nonneg.
  - intros bound.
    destruct (r2_of_bad_prediction (Qabs bound + 1)) as (q & Hq & Eq).
    exists [Fin 0; Fin 1], [Fin (Qabs bound + 1); Fin 1], q.
    repeat split; auto.
    rewrite Eq.
    pose proof (Qabs_nonneg bound) as Hn.
    pose proof (Qle_Qabs (- bound)) as Hb. rewrite Qabs_opp in Hb.
    nra.
Qed.

Lemma C9_r2_at_most_1_witness :
  exists r, calculateR2Score [Fin 0; Fin 1] [Fin 3; Fin 1] = Ok r /\ at_most 1 r.
Proof.
  apply (proj1 C9_r2_at_most_1_unbounded_below); reflexivity.
Defined.

(* ================================================================= *)
(** ** Inference: the bound on the next-day prediction *)



Lemma Qle_bool_cases a b :
  (Qle_bool a b = true /\ a <= b) \/ (Qle_bool a b = false /\ b < a).
Proof.
  destruct (Qle_bool a b) eqn:E.
  - left. split; auto. now apply Qle_bool_iff.
  - right. split; auto. destruct (Qlt_le_dec b a) as [L|L]; [assumption|].
    apply Qle_bool_iff in L. congruence.
Qed.

Ltac qle_cases a b :=
  let H := fresh "Hq" in
  destruct (Qle_bool_cases a b) as [[-> H] | [-> H]].







(* ================================================================= *)
(** ** Finite numbers, lists, powers of ten *)

Lemma finite_Fin q : finite (Fin q).
Proof. eexists; reflexivity. Qed.


Lemma Forall_finite_repr (l : list number) :
  Forall finite l -> exists qs, l = map Fin qs.
Proof.
  induction 1 as [|x l [q ->] _ [qs ->]].
  - exists []. reflexivity.
  - exists (q :: qs). reflexivity.
Qed.

Lemma length_map_from {A B} (f : A -> nat -> B) i a :
  length (map_from f i a) = length a.
Proof. revert i. induction a; intros i; simpl; auto. Qed.

Lemma pow10_positive d : 0 < inject_Z (pow10 d).
Proof.
  change 0 with (inject_Z 0). rewrite <- Zlt_Qlt.
  unfold pow10. apply Z.pow_pos_nonneg; lia.
Qed.

(* ================================================================= *)
(** ** Binary64: values, comparisons, rounding of a result field *)













(* ================================================================= *)
(** ** The confidence of a result *)




(* ================================================================= *)
(** ** The guards of the evaluator *)







(** The guard on the total sum of squares is a guard on the computed
    double.  On the constant series 0.1, 0.1, 0.1 the mean is rounded to
    0.10000000000000002, the total sum of squares is about 5.8e-34 and not
    0, and the score of the predictions 0.2, 0.2, 0.2 is about -5.2e31. *)
Lemma constant_series_misses_guard :
  let actual := decimals [0.1; 0.1; 0.1] in
  let predicted := decimals [0.2; 0.2; 0.2] in
  Double.strict_eq (Double.totalSumSquares actual) (Double.lit 0) = false /\
  exists r, Double.calculateR2Score actual predicted = Ok r /\
            Double.lt r (Double.of_Z (- 10 ^ 31)) = true.
Proof.
  split; [vm_compute; reflexivity|].
  eexists. split; vm_compute; reflexivity.
Qed.

(* ================================================================= *)
(** ** The trend of the statistical predictor *)

(** C7, as the claim states it, fails: the prices 1000, 1001, ..., 1009 are
    strictly increasing and the trend is [stable] (the extrapolated change 1
    is below half a percent of 1009); the prices 1, 2, ..., 9, 1000 are
    strictly increasing and the trend is [down] (the regression line at the
    next step, 407, is below the last price). *)
Lemma C7_increasing_not_up :
  (let d := series_of rising_1000 in
   (10 <= length d)%nat /\ strictly_increasing (map price d) /\
   forall M : MathLib,
     exists r, fastPredictStock d = Ok r /\ trend r = stable) /\
  (let d := series_of jump_1000 in
   (10 <= length d)%nat /\ strictly_increasing (map price d) /\
   forall M : MathLib,
     exists r, fastPredictStock d = Ok r /\ trend r = down).
Proof.
  split; cbv zeta.
  - split; [simpl; lia|]. split; [vm_compute; repeat split|].
    intros M. eexists. split; [reflexivity|]. vm_compute. reflexivity.
  - split; [simpl; lia|]. split; [vm_compute; repeat split|].
    intros M. eexists. split; [reflexivity|]. vm_compute. reflexivity.
Qed.

Lemma lt_abs_of_positive (c t : Double.double) :
  Double.lt (Double.lit 0) c = true ->
  Double.lt (Double.Math_abs c) t = Double.lt c t.
Proof.
  unfold Double.lt. change (Double.value (Double.lit 0)) with (Fin 0).
  destruct c as [s|[|]| |[|] m e]; cbn [Double.value Double.Math_abs SFabs lt];
    try discriminate; try reflexivity.
  intros H. exfalso.
  apply negb_true_iff in H.
  assert (L : inject_Z (cond_Zopp true (Z.pos m)) * 2 ^ e <= 0).
  { pose proof (Qpower_0_lt 2 e ltac:(reflexivity)) as Hp.
    assert (Hm : inject_Z (cond_Zopp true (Z.pos m)) < 0).
    { change 0 with (inject_Z 0). rewrite <- Zlt_Qlt. simpl. lia. }
    nra. }
  apply Qle_bool_iff in L. congruence.
Qed.

(** C7.  For every series of at least ten points, strictly increasing or
    not, the trend of the statistical predictor follows the change that the
    code computes: it is [up] exactly when the computed change
    [nextPrice - currentPrice] is positive and not below the computed
    threshold [currentPrice * 0.005], [stable] exactly when the magnitude
    of the change is below the threshold, and [down] otherwise. *)
Theorem C7_trend_of_computed_change (stockData : list Double.StockPoint) :
  (10 <= length stockData)%nat ->
  let prices := map Double.price stockData in
  let currentPrice := Double.fast_currentPrice prices in
  let change :=
    Double.sub (Double.fast_nextPrice (slice_last 10 prices)) currentPrice in
  let threshold := Double.mul currentPrice (Double.lit 0.005) in
  exists r,
    Double.fastPredictStock stockData = Ok r /\
    (Double.trend r = up
     <-> Double.lt (Double.lit 0) change = true /\
         Double.lt change threshold = false) /\
    (Double.trend r = stable
     <-> Double.lt (Double.Math_abs change) threshold = true) /\
    (Double.trend r = down
     <-> Double.lt (Double.Math_abs change) threshold = false /\
         Double.lt (Double.lit 0) change = false).
Proof.
  intros Hlen prices currentPrice change threshold.
  unfold Double.fastPredictStock.
  destruct (Nat.ltb_spec (length stockData) 10) as [L|_]; [lia|].
  eexists. split; [reflexivity|]. cbn [Double.trend].
  fold prices. fold currentPrice. fold change.
  unfold Double.classify_trend, Double.gt. fold threshold.
  destruct (Double.lt (Double.lit 0) change) eqn:Hpos.
  - rewrite (lt_abs_of_positive change threshold Hpos).
    destruct (Double.lt change threshold);
      repeat split; try discriminate; try tauto;
      intros [? ?]; discriminate.
  - destruct (Double.lt (Double.Math_abs change) threshold);
      repeat split; try discriminate; try tauto;
      intros [? ?]; discriminate.
Qed.

Lemma C7_trend_of_computed_change_witness :
  exists r,
    Double.fastPredictStock (doubles_of rising_100) = Ok r /\
    Double.trend r = up.
Proof.
  destruct (C7_trend_of_computed_change (doubles_of rising_100))
    as (r & Hr & Hup & _).
  - simpl; lia.
  - exists r. split; [exact Hr|]. apply Hup.
    split; vm_compute; reflexivity.
Defined.

(** The same in doubles: 1000, ..., 1009 gives [stable] and 1, ..., 9, 1000
    gives [down].  So do positive and strictly increasing prices for which
    the exact change is the exact threshold, 1 for a current price of 200:
    in doubles the next price is 200.99999999999997, the change is below
    the threshold, and the trend is [stable]. *)
Lemma increasing_not_up_in_doubles :
  (exists r, Double.fastPredictStock (doubles_of rising_1000) = Ok r /\
             Double.trend r = stable) /\
  (exists r, Double.fastPredictStock (doubles_of jump_1000) = Ok r /\
             Double.trend r = down) /\
  (exists r,
      Double.fastPredictStock
        (doubles_of [8; 40; 64; 83; 109; 111; 116; 131; 156; 200]%Z) = Ok r /\
      Double.trend r = stable).
Proof.
  split; [|split]; eexists; split; vm_compute; reflexivity.
Qed.

(* ================================================================= *)
(** ** Failures of the enhanced path *)

Section Fallback.
Context {M : MathLib} {T : TensorFlow}.

(** C4.  For every series on which the statistical predictor succeeds, if
    any step of the enhanced path throws (the processing of the data, the
    training raced against its timeout, the predictions, the metrics), then
    [enhancedPredictStock] returns the result of the statistical predictor;
    and in every case it returns a result: no failure of the enhanced path
    reaches the caller. *)
Theorem C4_enhanced_failures_fall_back
    (stockData : list StockPoint) (fastResult : Prediction) :
  fastPredictStock stockData = Ok fastResult ->
  (forall msg, enhanced_try stockData = Throw msg ->
               enhancedPredictStock stockData = Ok fastResult) /\
  (exists r, enhancedPredictStock stockData = Ok r).
Proof.
  intros Hfast. unfold enhancedPredictStock. rewrite Hfast. cbn [bind]. split.
  - intros msg ->. reflexivity.
  - destruct (enhanced_try stockData) as [r|msg]; eexists; reflexivity.
Qed.

End Fallback.

(** A training that rejects, or that never settles, leaves the result of the
    statistical predictor, whatever the series. *)
Lemma enhanced_without_training {M : MathLib} (T : TensorFlow) stockData :
  (forall rows targets,
      match fit rows targets with Resolves _ _ => False | _ => True end) ->
  enhancedPredictStock stockData = fastPredictStock stockData.
Proof.
  intros Hfit. unfold enhancedPredictStock.
  destruct (fastPredictStock stockData) as [r|msg]; [|reflexivity].
  cbn [bind]. unfold enhanced_try.
  destruct (processStockData _) as [pd|]; [|reflexivity]. cbn [bind].
  unfold trainLinearRegressionModel. cbv zeta.
  match goal with |- context [fit ?a ?b] =>
    specialize (Hfit a b); destruct (fit a b) as [ms net|ms m|]
  end; try contradiction; cbn [race_timeout].
  - destruct (ms <=? 8000)%N; reflexivity.
  - reflexivity.
Qed.

(** In particular a training that hangs is cut by the inner timeout. *)
Lemma enhanced_hanging_training {M : MathLib} stockData :
  @enhancedPredictStock M tf_hanging stockData = fastPredictStock stockData.
Proof. apply enhanced_without_training. intros; exact I. Qed.

Lemma C4_enhanced_failures_witness :
  exists r,
    @fastPredictStock SampleMath (series_of rising_100) = Ok r /\
    @enhancedPredictStock SampleMath tf_rejecting (series_of rising_100) = Ok r.
Proof.
  eexists. split; [vm_compute; reflexivity|].
  apply (@C4_enhanced_failures_fall_back SampleMath tf_rejecting
           (series_of rising_100) _ ltac:(vm_compute; reflexivity))
    with (msg := "training failed"%string).
  vm_compute. reflexivity.
Defined.

(* ================================================================= *)
(** ** The statistical predictor does not write to the store *)

Lemma allocates_only_ret {A} (a : A) : allocates_only (ret a).
Proof. intros h. exists []. simpl. now rewrite app_nil_r. Qed.

Lemma allocates_only_bind {A B} (m : St A) (k : A -> St B) :
  allocates_only m -> (forall a, allocates_only (k a)) ->
  allocates_only (bindS m k).
Proof.
  intros Hm Hk h. unfold bindS.
  destruct (Hm h) as [f1 E1]. destruct (m h) as [a h1]. simpl in E1. subst h1.
  destruct (Hk a (h ++ f1)) as [f2 E2].
  exists (f1 ++ f2). now rewrite E2, app_assoc.
Qed.

Lemma allocates_only_alloc o : allocates_only (alloc o).
Proof. intros h. exists [o]. reflexivity. Qed.

Lemma allocates_only_read_points r : allocates_only (read_points r).
Proof. intros h. exists []. simpl. now rewrite app_nil_r. Qed.

Lemma allocates_only_read_numbers r : allocates_only (read_numbers r).
Proof. intros h. exists []. simpl. now rewrite app_nil_r. Qed.

Lemma allocates_only_length r : allocates_only (array_length r).
Proof. intros h. exists []. simpl. now rewrite app_nil_r. Qed.

Create HintDb store.
#[export] Hint Resolve allocates_only_ret allocates_only_alloc
  allocates_only_read_points allocates_only_read_numbers
  allocates_only_length : store.

Ltac allocates_only :=
  repeat first
    [ apply allocates_only_bind; [|intros ?]
    | progress auto with store
    | match goal with
      | |- allocates_only (if ?c then _ else _) => destruct c
      end
    | progress unfold array_map_price, array_slice_last, array_slice_1,
        array_mapi, array_from, array_reduce, array_reducei, array_get ].

Lemma fastPredictStock_store_allocates_only {M : MathLib} (stockData : ref) :
  allocates_only (fastPredictStock_store stockData).
Proof. unfold fastPredictStock_store. allocates_only. Qed.

Lemma nth_error_snoc_last {A} (h : list A) o :
  nth_error (h ++ [o]) (length h) = Some o.
Proof. rewrite nth_error_app2, Nat.sub_diag by lia. reflexivity. Qed.

Lemma nth_error_snoc_old {A} (h : list A) o r :
  (r < length h)%nat -> nth_error (h ++ [o]) r = nth_error h r.
Proof. intros H. now rewrite nth_error_app1. Qed.

Ltac store_reads :=
  repeat first
    [ rewrite nth_error_snoc_last
    | rewrite nth_error_snoc_old by (rewrite ?length_app; simpl; lia) ].

(** The computation over the store returns what the function on the array
    of points returns. *)
Lemma fastPredictStock_store_result {M : MathLib} stockData h d :
  nth_error h stockData = Some (PointArray d) ->
  fst (fastPredictStock_store stockData h) = fastPredictStock d.
Proof.
  intros Hd. unfold fastPredictStock_store, fastPredictStock.
  unfold bindS at 1. unfold array_length at 1. rewrite Hd.
  destruct (length d <? 10)%nat; [reflexivity|].
  unfold array_map_price, array_slice_last, array_slice_1, array_mapi,
    array_from, array_reduce, array_reducei, array_get, array_length,
    read_points, read_numbers, alloc, bindS, ret.
  rewrite Hd. store_reads. cbn [fst].
  unfold fast_currentPrice, fast_nextPrice, fast_confidence, fast_shortMA,
    fast_longMA, fast_slope, volatility_of, returns_of, sum.
  reflexivity.
Qed.

(** C10.  [fastPredictStock] never writes to its input: for every store and
    every reference, each object of the initial store, the array of points
    and its records among them, is the same object after the call; the
    arrays that the function builds are fresh objects, and the value returned
    is the one computed from the array of points. *)
Theorem C10_fastPredictStock_frame
    {M : MathLib} (stockData : ref) (h : heap) :
  (forall r o, nth_error h r = Some o ->
     nth_error (snd (fastPredictStock_store stockData h)) r = Some o) /\
  (forall d, nth_error h stockData = Some (PointArray d) ->
     fst (fastPredictStock_store stockData h) = fastPredictStock d /\
     nth_error (snd (fastPredictStock_store stockData h)) stockData
     = Some (PointArray d)).
Proof.
  destruct (fastPredictStock_store_allocates_only stockData h) as [fresh E].
  assert (F : forall r o, nth_error h r = Some o ->
                nth_error (snd (fastPredictStock_store stockData h)) r = Some o).
  { intros r o Hr. rewrite E. rewrite nth_error_app1; [exact Hr|].
    apply nth_error_Some. congruence. }
  split; [exact F|].
  intros d Hd. split; [now apply fastPredictStock_store_result | now apply F].
Qed.

Lemma C10_fastPredictStock_frame_witness :
  let d := series_of rising_100 in
  nth_error (snd (@fastPredictStock_store SampleMath 0%nat [PointArray d])) 0
  = Some (PointArray d) /\
  fst (@fastPredictStock_store SampleMath 0%nat [PointArray d])
  = @fastPredictStock SampleMath d.
Proof.
  intros d.
  destruct (@C10_fastPredictStock_frame SampleMath 0%nat [PointArray d])
    as [_ H].
  destruct (H d) as [H1 H2]; [reflexivity|]. split; assumption.
Defined.

(* ================================================================= *)
(** ** The object built from a series: writes and reads *)

(** The values of the object are prices of the series. *)
Lemma obj_set_values (P : number -> Prop) acc k v :
  Forall (fun kv => P (snd kv)) acc -> P v ->
  Forall (fun kv => P (snd kv)) (obj_set acc k v).
Proof.
  intros H Hv. unfold obj_set. destruct (String.eqb k "__proto__"); [exact H|].
  induction H as [|[k' v'] acc Hkv Hacc IH]; simpl.
  - constructor; auto.
  - destruct (String.eqb k' k); constructor; auto.
Qed.

Lemma object_of_series_values (P : number -> Prop) (stockData : list StockPoint) :
  Forall P (map price stockData) ->
  forall acc,
    Forall (fun kv => P (snd kv)) acc ->
    Forall (fun kv => P (snd kv))
      (fold_left (fun acc item => obj_set acc (date item) (price item))
                 stockData acc).
Proof.
  induction stockData as [|item l IH]; intros H acc Hacc; simpl; auto.
  inversion_clear H. apply IH; auto. now apply obj_set_values.
Qed.

Lemma own_get_set_same (acc : TimeSeries) k v : obj_get (own_set acc k v) k = v.
Proof.
  induction acc as [|[k' v'] acc IH]; simpl.
  - now rewrite String.eqb_refl.
  - destruct (String.eqb k' k) eqn:E; simpl; rewrite E; auto.
Qed.

Lemma own_get_set_other (acc : TimeSeries) k v k' :
  k <> k' -> obj_get (own_set acc k v) k' = obj_get acc k'.
Proof.
  intros Hne. induction acc as [|[k0 v0] acc IH]; simpl.
  - destruct (String.eqb_spec k k'); [contradiction | reflexivity].
  - destruct (String.eqb_spec k0 k) as [->|Hk]; simpl.
    + destruct (String.eqb_spec k k'); [contradiction | reflexivity].
    + destruct (String.eqb k0 k'); auto.
Qed.

Lemma own_set_keys (acc : TimeSeries) k v k' :
  In k' (map fst (own_set acc k v)) <-> k' = k \/ In k' (map fst acc).
Proof.
  induction acc as [|[k0 v0] acc IH]; simpl.
  - intuition.
  - destruct (String.eqb_spec k0 k) as [->|Hk]; simpl; [intuition|].
    rewrite IH. intuition.
Qed.

Lemma own_set_NoDup (acc : TimeSeries) k v :
  NoDup (map fst acc) -> NoDup (map fst (own_set acc k v)).
Proof.
  induction acc as [|[k0 v0] acc IH]; simpl; intros H.
  - repeat constructor. intros [].
  - inversion_clear H as [|? ? Hn Hd].
    destruct (String.eqb_spec k0 k) as [->|Hk]; simpl.
    + constructor; assumption.
    + constructor; [|auto]. rewrite own_set_keys. intros [->|?]; auto.
Qed.

Lemma own_set_fresh (acc : TimeSeries) k v :
  ~ In k (map fst acc) -> own_set acc k v = acc ++ [(k, v)].
Proof.
  induction acc as [|[k' v'] acc IH]; simpl; intros H; [reflexivity|].
  destruct (String.eqb_spec k' k) as [->|_]; [tauto|].
  rewrite IH by tauto. reflexivity.
Qed.

Lemma obj_get_set_same (acc : TimeSeries) k v :
  k <> "__proto__"%string -> obj_get (obj_set acc k v) k = v.
Proof.
  intros Hk. unfold obj_set.
  destruct (String.eqb_spec k "__proto__"); [contradiction|].
  apply own_get_set_same.
Qed.

Lemma obj_get_set_other (acc : TimeSeries) k v k' :
  k <> k' -> obj_get (obj_set acc k v) k' = obj_get acc k'.
Proof.
  intros Hne. unfold obj_set.
  destruct (String.eqb k "__proto__"); [reflexivity|].
  now apply own_get_set_other.
Qed.

Lemma obj_set_keys (acc : TimeSeries) k v k' :
  In k' (map fst (obj_set acc k v))
  <-> (k' = k /\ k <> "__proto__"%string) \/ In k' (map fst acc).
Proof.
  unfold obj_set. destruct (String.eqb_spec k "__proto__") as [E|E].
  - tauto.
  - rewrite own_set_keys. tauto.
Qed.

Lemma obj_set_NoDup (acc : TimeSeries) k v :
  NoDup (map fst acc) -> NoDup (map fst (obj_set acc k v)).
Proof.
  unfold obj_set. destruct (String.eqb k "__proto__"); [auto|].
  apply own_set_NoDup.
Qed.

Lemma obj_set_fresh (acc : TimeSeries) k v :
  k <> "__proto__"%string -> ~ In k (map fst acc) ->
  obj_set acc k v = acc ++ [(k, v)].
Proof.
  intros Hk H. unfold obj_set.
  destruct (String.eqb_spec k "__proto__"); [contradiction|].
  now apply own_set_fresh.
Qed.

Lemma object_fold_get_other (d : list StockPoint) (acc : TimeSeries) k :
  ~ In k (map date d) ->
  obj_get (fold_left (fun acc item => obj_set acc (date item) (price item)) d acc) k
  = obj_get acc k.
Proof.
  revert acc. induction d as [|item d IH]; intros acc H; simpl; [reflexivity|].
  simpl in H. rewrite IH by tauto. apply obj_get_set_other. tauto.
Qed.

Lemma object_fold_keys (d : list StockPoint) (acc : TimeSeries) k :
  In k (map fst (fold_left (fun acc item => obj_set acc (date item) (price item))
                           d acc))
  <-> (In k (map date d) /\ k <> "__proto__"%string) \/ In k (map fst acc).
Proof.
  revert acc. induction d as [|item d IH]; intros acc; simpl; [tauto|].
  rewrite IH, obj_set_keys. intuition congruence.
Qed.

Lemma object_fold_NoDup (d : list StockPoint) (acc : TimeSeries) :
  NoDup (map fst acc) ->
  NoDup (map fst (fold_left (fun acc item => obj_set acc (date item) (price item))
                            d acc)).
Proof.
  revert acc. induction d as [|item d IH]; intros acc H; simpl; [exact H|].
  apply IH, obj_set_NoDup, H.
Qed.

(** X4.  The object that the enhanced path builds has one key per distinct date
    of the series other than [__proto__] (a point of that date replaces the
    prototype and adds no key), and reading a date gives the price of the
    last point of that date: an earlier point of the same date is
    overwritten. *)
Theorem series_object_last_wins (stockData : list StockPoint) :
  NoDup (map fst (series_object stockData)) /\
  (forall k, In k (map fst (series_object stockData))
             <-> In k (map date stockData) /\ k <> "__proto__"%string) /\
  (forall before item after,
      stockData = before ++ item :: after ->
      date item <> "__proto__"%string ->
      ~ In (date item) (map date after) ->
      obj_get (series_object stockData) (date item) = price item).
Proof.
  unfold series_object. split; [|split].
  - apply object_fold_NoDup. constructor.
  - intros k. rewrite object_fold_keys. simpl. tauto.
  - intros before item after -> Hk Hlast.
    rewrite fold_left_app. cbn [fold_left].
    rewrite object_fold_get_other by exact Hlast.
    now apply obj_get_set_same.
Qed.

Lemma series_object_last_wins_witness :
  let d := [ {| date := "2024-01-02"; price := Fin 10 |};
             {| date := "__proto__"; price := Fin 500 |};
             {| date := "2024-01-02"; price := Fin 11 |} ]%string in
  obj_get (series_object d) "2024-01-02" = Fin 11 /\
  map fst (series_object d) = ["2024-01-02"%string].
Proof.
  intros d. split; [|reflexivity].
  apply (proj2 (proj2 (series_object_last_wins d))
           [ {| date := "2024-01-02"; price := Fin 10 |};
             {| date := "__proto__"; price := Fin 500 |} ]%string
           {| date := "2024-01-02"; price := Fin 11 |}%string []).
  - reflexivity.
  - discriminate.
  - intros [].
Defined.

(* ================================================================= *)
(** ** [processStockData]: results, errors, round trip *)

Lemma insert_key_perm k ks : Permutation (insert_key k ks) (k :: ks).
Proof.
  induction ks as [|k' ks IH]; simpl; [reflexivity|].
  destruct (String.leb k k'); [reflexivity|].
  rewrite IH. apply perm_swap.
Qed.

Lemma sorted_keys_perm (o : TimeSeries) : Permutation (sorted_keys o) (map fst o).
Proof.
  unfold sorted_keys. induction (map fst o) as [|k ks IH]; simpl; [reflexivity|].
  rewrite insert_key_perm. now constructor.
Qed.

Lemma insert_key_ascending k ks : ascending ks -> ascending (insert_key k ks).
Proof.
  unfold ascending. induction 1 as [|k' ks Hs IH Hd]; simpl.
  - repeat constructor.
  - destruct (String.leb k k') eqn:E.
    + repeat constructor; assumption.
    + constructor; [exact IH|].
      assert (E' : String.leb k' k = true)
        by (destruct (String.leb_total k k'); congruence).
      destruct Hd as [|k'' ks' Hk]; simpl.
      * constructor. exact E'.
      * destruct (String.leb k k''); constructor; assumption.
Qed.

Lemma sorted_keys_ascending (o : TimeSeries) : ascending (sorted_keys o).
Proof.
  unfold sorted_keys. induction (map fst o) as [|k ks IH]; simpl.
  - constructor.
  - now apply insert_key_ascending.
Qed.

(** Keys that are already in order are left as they are. *)
Lemma sorted_keys_of_ascending (o : TimeSeries) :
  ascending (map fst o) -> sorted_keys o = map fst o.
Proof.
  unfold sorted_keys, ascending. induction 1 as [|k ks Hs IH Hd]; simpl; auto.
  rewrite IH. destruct Hd as [|k' ks' Hk]; simpl; [reflexivity|].
  now rewrite Hk.
Qed.

Lemma parse_prices_spec (o : TimeSeries) (ds : list string) (ps : list number) :
  parse_prices o ds = Ok ps
  <-> Forall (fun d => isNaN (obj_get o d) = false) ds /\ ps = map (obj_get o) ds.
Proof.
  revert ps. induction ds as [|d ds IH]; intros ps; simpl.
  - split; [intros [= <-]; auto | intros [_ ->]; reflexivity].
  - destruct (isNaN (obj_get o d)) eqn:E.
    + split; [discriminate|]. intros [H _]. inversion_clear H. congruence.
    + destruct (parse_prices o ds) as [rest|msg] eqn:Er; cbn [bind].
      * destruct (IH rest) as [[Hf ->] _]; [reflexivity|].
        split; [intros [= <-]; auto | intros [_ ->]; reflexivity].
      * split; [discriminate|]. intros [H _]. inversion_clear H. exfalso.
        enough (X : @Throw (list number) msg = Ok (map (obj_get o) ds))
          by discriminate X.
        apply IH. split; auto.
Qed.

Lemma parse_prices_throws (o : TimeSeries) (ds : list string) msg :
  parse_prices o ds = Throw msg ->
  exists d, msg = ("Invalid price data for date " ++ d)%string.
Proof.
  induction ds as [|d ds IH]; simpl; [discriminate|].
  destruct (isNaN (obj_get o d)); [intros [= <-]; eauto|].
  destruct (parse_prices o ds); cbn [bind]; [discriminate|].
  intros [= <-]. now apply IH.
Qed.

Lemma existsb_isNaN_map (o : TimeSeries) ds :
  Forall (fun d => isNaN (obj_get o d) = false) ds ->
  existsb isNaN (map (obj_get o) ds) = false.
Proof. induction 1; simpl; auto. rewrite H. auto. Qed.

(** X1.  What a successful [processStockData] returns: the keys of the object in
    ascending order, the price of each key in that order, none of them
    [NaN], the indices [0, 1, ...], and at least one point. *)
Theorem processStockData_success (ts : TimeSeries) (pd : StockData) :
  processStockData (Some ts) = Ok pd ->
  ascending (dates pd) /\
  Permutation (dates pd) (map fst ts) /\
  prices pd = map (obj_get ts) (dates pd) /\
  existsb isNaN (prices pd) = false /\
  xs pd = iota (length (prices pd)) /\
  (0 < length (prices pd))%nat.
Proof.
  unfold processStockData.
  destruct (parse_prices ts (sorted_keys ts)) as [ps|] eqn:E; [|discriminate].
  cbn [bind]. apply parse_prices_spec in E as [Hf ->].
  destruct (Nat.eqb_spec (length (map (obj_get ts) (sorted_keys ts))) 0);
    [discriminate|].
  rewrite existsb_isNaN_map by assumption.
  intros [= <-]. cbn [dates prices xs].
  repeat split; auto using sorted_keys_ascending, sorted_keys_perm.
  - apply existsb_isNaN_map; assumption.
  - now rewrite length_map.
  - lia.
Qed.

Lemma processStockData_success_witness :
  let ts := [("2024-01-03", Fin 12); ("2024-01-02", Fin 11)]%string in
  exists pd, processStockData (Some ts) = Ok pd /\
             dates pd = ["2024-01-02"; "2024-01-03"]%string /\
             prices pd = [Fin 11; Fin 12].
Proof.
  intros ts. eexists. split; [reflexivity|].
  pose proof (processStockData_success ts _ eq_refl) as (_ & _ & Hp & _).
  split; [reflexivity | exact Hp].
Defined.

(** X2.  The errors of [processStockData]: the format error for a missing object,
    the empty-data error for an object without keys, and no result when the
    price of some key is [NaN]; the last check of the function never
    fires. *)
Theorem processStockData_errors (data : option TimeSeries) :
  (processStockData data = Throw "Invalid stock data format" <-> data = None) /\
  (processStockData data = Throw "No valid price data found" <-> data = Some []) /\
  processStockData data <> Throw "Price data contains invalid values" /\
  ((exists pd, processStockData data = Ok pd)
   <-> exists ts, data = Some ts /\ ts <> [] /\
                  Forall (fun k => isNaN (obj_get ts k) = false) (map fst ts)).
Proof.
  destruct data as [ts|]; cbn [processStockData].
  2:{ split; [tauto|]. split; [split; discriminate|]. split; [discriminate|].
      split; [intros [pd H]; discriminate | intros (ts & H & _); discriminate]. }
  destruct (parse_prices ts (sorted_keys ts)) as [ps|msg] eqn:E; cbn [bind].
  - apply parse_prices_spec in E as [Hf ->].
    assert (Hk : Forall (fun k => isNaN (obj_get ts k) = false) (map fst ts)).
    { rewrite Forall_forall in *. intros k Hin. apply Hf.
      eapply Permutation_in; [symmetry; apply sorted_keys_perm | exact Hin]. }
    assert (Hlen : length (map (obj_get ts) (sorted_keys ts)) = length ts).
    { rewrite length_map, (Permutation_length (sorted_keys_perm ts)).
      apply length_map. }
    rewrite Hlen, existsb_isNaN_map by assumption.
    destruct ts as [|kv ts]; cbn [length Nat.eqb].
    + split; [split; discriminate|]. split; [tauto|]. split; [discriminate|].
      split; [intros [pd H]; discriminate|].
      intros (ts & [= <-] & H & _). congruence.
    + split; [split; discriminate|]. split; [split; discriminate|].
      split; [discriminate|]. split.
      * intros _. eexists. split; [reflexivity|]. split; [discriminate | exact Hk].
      * intros _. eexists; reflexivity.
  - destruct (parse_prices_throws _ _ _ E) as [d ->].
    assert (Hnot : ~ Forall (fun k => isNaN (obj_get ts k) = false) (map fst ts)).
    { intros Hk.
      assert (Hf : Forall (fun k => isNaN (obj_get ts k) = false) (sorted_keys ts)).
      { rewrite Forall_forall in *. intros k Hin. apply Hk.
        eapply Permutation_in; [apply sorted_keys_perm | exact Hin]. }
      enough (X : @Throw (list number) ("Invalid price data for date " ++ d)
                  = Ok (map (obj_get ts) (sorted_keys ts))) by discriminate X.
      rewrite <- E. apply parse_prices_spec. auto. }
    split; [split; discriminate|]. split.
    { split; [discriminate|]. intros [= ->]. discriminate E. }
    split; [discriminate|]. split.
    + intros [pd H]; discriminate.
    + intros (ts' & [= <-] & _ & Hk). contradiction.
Qed.

Lemma processStockData_errors_witness :
  processStockData (Some []) = Throw "No valid price data found" /\
  (exists pd, processStockData (Some [("2024-01-02"%string, Fin 11)]) = Ok pd).
Proof.
  split.
  - apply (processStockData_errors (Some [])). reflexivity.
  - apply (processStockData_errors (Some [("2024-01-02"%string, Fin 11)])).
    eexists. split; [reflexivity|]. split; [discriminate|].
    repeat constructor.
Defined.

Lemma object_of_distinct_dates (d : list StockPoint) (acc : TimeSeries) :
  ~ In "__proto__"%string (map date d) ->
  NoDup (map fst acc ++ map date d) ->
  fold_left (fun acc item => obj_set acc (date item) (price item)) d acc
  = acc ++ map (fun item => (date item, price item)) d.
Proof.
  revert acc. induction d as [|item d IH]; intros acc Hp H; simpl.
  - now rewrite app_nil_r.
  - simpl in H, Hp. rewrite obj_set_fresh.
    + rewrite IH.
      * now rewrite <- app_assoc.
      * tauto.
      * rewrite map_app. simpl. rewrite <- app_assoc. exact H.
    + intros E. apply Hp. left. exact E.
    + apply NoDup_remove_2 in H. intros Hin. apply H, in_or_app. auto.
Qed.

(** A series whose dates are all [__proto__] leaves the object without a
    key. *)
Lemma object_of_proto_dates (d : list StockPoint) (acc : TimeSeries) :
  Forall (fun item => date item = "__proto__"%string) d ->
  fold_left (fun acc item => obj_set acc (date item) (price item)) d acc = acc.
Proof.
  intros H. revert acc. induction H as [|item d Hi _ IH]; intros acc; simpl.
  - reflexivity.
  - rewrite IH. unfold obj_set. now rewrite Hi.
Qed.

Lemma obj_get_distinct (o : TimeSeries) k v :
  NoDup (map fst o) -> In (k, v) o -> obj_get o k = v.
Proof.
  induction o as [|[k' v'] o IH]; simpl; intros Hn Hin; [contradiction|].
  inversion_clear Hn.
  destruct Hin as [[= -> ->]|Hin].
  - now rewrite String.eqb_refl.
  - destruct (String.eqb_spec k' k) as [->|_]; [|auto].
    exfalso. apply H. change k with (fst (k, v)). now apply in_map.
Qed.

(** X3.  Round trip.  For a non-empty series whose dates are distinct,
    ascending and none of them [__proto__], and whose prices are numbers,
    processing the object built from the series gives back the dates and
    the prices of the series, in order, with the indices [0, 1, ...]; a
    series whose dates are all [__proto__] builds an object without a key,
    which [processStockData] refuses. *)
Theorem processStockData_round_trip (d : list StockPoint) :
  (d <> [] -> NoDup (map date d) -> ascending (map date d) ->
   ~ In "__proto__"%string (map date d) ->
   existsb isNaN (map price d) = false ->
   processStockData (Some (series_object d))
   = Ok {| dates := map date d; prices := map price d; xs := iota (length d) |}) /\
  (Forall (fun item => date item = "__proto__"%string) d ->
   processStockData (Some (series_object d)) = Throw "No valid price data found").
Proof.
  split.
  2:{ intros H. unfold series_object. now rewrite object_of_proto_dates. }
  intros Hne Hnd Hasc Hproto Hnan.
  assert (Eo : series_object d = map (fun item => (date item, price item)) d).
  { unfold series_object. now rewrite object_of_distinct_dates. }
  assert (Ek : map fst (series_object d) = map date d).
  { rewrite Eo, map_map. reflexivity. }
  assert (Eg : map (obj_get (series_object d)) (map date d) = map price d).
  { rewrite map_map. apply map_ext_in. intros item Hin.
    apply obj_get_distinct; [now rewrite Ek|].
    rewrite Eo. now apply (in_map (fun item => (date item, price item))). }
  unfold processStockData.
  rewrite sorted_keys_of_ascending by now rewrite Ek.
  rewrite Ek.
  assert (Hf : Forall (fun k => isNaN (obj_get (series_object d) k) = false)
                      (map date d)).
  { rewrite <- Eg in Hnan. clear -Hnan.
    induction (map date d) as [|k ks IH]; constructor; simpl in Hnan;
      apply orb_false_iff in Hnan as [? ?]; auto. }
  destruct (parse_prices_spec (series_object d) (map date d)
              (map (obj_get (series_object d)) (map date d))) as [_ Hb].
  rewrite Hb by auto. cbn [bind]. rewrite Eg, Hnan, !length_map.
  destruct d; [congruence|]. reflexivity.
Qed.

Lemma processStockData_round_trip_witness :
  processStockData (Some (series_object (series_of rising_100)))
  = Ok {| dates := map date (series_of rising_100);
          prices := map price (series_of rising_100);
          xs := iota 10 |} /\
  processStockData (Some (series_object [ {| date := "__proto__"; price := Fin 1 |} ]))
  = Throw "No valid price data found".
Proof.
  split.
  - apply (proj1 (processStockData_round_trip (series_of rising_100))).
    + discriminate.
    + vm_compute. repeat constructor; simpl; intuition discriminate.
    + vm_compute. repeat constructor.
    + vm_compute. intuition discriminate.
    + reflexivity.
  - apply (proj2 (processStockData_round_trip
                    [ {| date := "__proto__"; price := Fin 1 |} ])).
    repeat constructor.
Defined.

(* ================================================================= *)
(** ** The evaluator on perfect predictions *)

Lemma get_middle (pre suf : list number) (x : number) :
  get (pre ++ x :: suf) (Z.of_nat (length pre)) = x.
Proof.
  unfold get. destruct (Z.ltb_spec (Z.of_nat (length pre)) 0); [lia|].
  rewrite Nat2Z.id, app_nth2, Nat.sub_diag by lia. reflexivity.
Qed.

Lemma get_map_middle (pre suf : list Q) (q : Q) :
  get (map Fin (pre ++ q :: suf)) (Z.of_nat (length pre)) = Fin q.
Proof.
  rewrite map_app. cbn [map]. rewrite <- (length_map Fin pre). apply get_middle.
Qed.

Lemma residual_self_from (pre suf : list Q) (a : Q) :
  exists r,
    reduce_from
      (fun sum val i => sum + pow2 (val - get (map Fin (pre ++ suf)) (Z.of_nat i)))%js
      (length pre) (map Fin suf) (Fin a) = Fin r /\ r == a.
Proof.
  revert pre a. induction suf as [|q suf IH]; intros pre a.
  - exists a. split; reflexivity.
  - cbn [map reduce_from]. rewrite get_map_middle.
    replace (pre ++ q :: suf) with ((pre ++ [q]) ++ suf)
      by (rewrite <- app_assoc; reflexivity).
    replace (S (length pre)) with (length (pre ++ [q]))
      by (rewrite length_app; simpl; lia).
    cbn [pow2 sub add neg mul].
    destruct (IH (pre ++ [q]) (a + (q + - q) * (q + - q))) as (r & Hr & Er).
    exists r. split; [exact Hr|]. rewrite Er. ring.
Qed.

Lemma residualSumSquares_self (qs : list Q) :
  exists r, residualSumSquares (map Fin qs) (map Fin qs) = Fin r /\ r == 0.
Proof. exact (residual_self_from [] qs 0). Qed.

(** X5.  The mean squared error is never negative, and it is exactly 0 when the
    predictions are the actual values. *)
Theorem calculateMSE_nonnegative (actual predicted : list number) :
  (forall mse, calculateMSE actual predicted = Ok mse -> nonnegative mse) /\
  (Forall finite actual ->
   exists q, calculateMSE actual actual = Ok (Fin q) /\ q == 0).
Proof.
  split.
  - intros mse. unfold calculateMSE.
    destruct (negb _); [discriminate|].
    destruct (_ || _); [intros [= <-]; simpl; lra|].
    cbv zeta. pose proof (residualSumSquares_nonneg actual predicted) as Hn.
    assert (Hlen : 0 <= inject_Z (Z.of_nat (length actual))).
    { change 0 with (inject_Z 0). rewrite <- Zle_Qle. lia. }
    destruct (residualSumSquares actual predicted) as [r| | |];
      try contradiction; unfold of_nat, of_Z; cbn [div]; simpl in Hn.
    + destruct (Qeq_bool (inject_Z (Z.of_nat (length actual))) 0) eqn:E.
      * destruct (r ?= 0) eqn:C; cbn [inf_signed isNaN]; intros [= <-]; simpl;
          auto; try lra.
        apply Qlt_alt in C. lra.
      * cbn [isNaN]. intros [= <-]. simpl.
        apply Qeq_bool_neq in E. apply Qle_shift_div_l; lra.
    + apply Qle_bool_iff in Hlen as ->. intros [= <-]. exact I.
    + intros [= <-]. simpl; lra.
  - intros Hf. destruct (Forall_finite_repr actual Hf) as [qs ->].
    unfold calculateMSE. rewrite Nat.eqb_refl. cbn [negb].
    assert (Hn : existsb isNaN (map Fin qs) = false)
      by (clear; induction qs; simpl; auto).
    rewrite Hn. cbn [orb]. cbv zeta.
    destruct (residualSumSquares_self qs) as (r & -> & Er).
    unfold of_nat, of_Z. cbn [div].
    destruct (Qeq_bool (inject_Z (Z.of_nat (length (map Fin qs)))) 0) eqn:E.
    + apply Qeq_alt in Er. rewrite Er. cbn [inf_signed isNaN].
      exists 0. split; reflexivity.
    + cbn [isNaN]. eexists. split; [reflexivity|].
      rewrite Er. apply Qeq_bool_neq in E. field. exact E.
Qed.

Lemma calculateMSE_nonnegative_witness :
  (exists mse, calculateMSE [Fin 1; Fin 3] [Fin 3; Fin 3] = Ok mse /\
               nonnegative mse) /\
  (exists q, calculateMSE [Fin 1; Fin 2] [Fin 1; Fin 2] = Ok (Fin q) /\ q == 0).
Proof.
  split.
  - eexists. split; [vm_compute; reflexivity|].
    apply (proj1 (calculateMSE_nonnegative [Fin 1; Fin 3] [Fin 3; Fin 3])).
    vm_compute. reflexivity.
  - apply (proj2 (calculateMSE_nonnegative [Fin 1; Fin 2] [Fin 1; Fin 2])).
    repeat constructor; apply finite_Fin.
Defined.

Lemma sub_self (x : Double.double) :
  finite_double x -> Double.sub x x = S754_zero false.
Proof.
  unfold finite_double.
  destruct x as [[|]|[|]| |s m e]; try discriminate; intros _;
    try reflexivity.
  unfold Double.sub, SFsub. rewrite Z.sub_diag. reflexivity.
Qed.

Lemma double_get_middle (pre suf : list Double.double) (x : Double.double) :
  Double.get (pre ++ x :: suf) (Z.of_nat (length pre)) = x.
Proof.
  unfold Double.get. destruct (Z.ltb_spec (Z.of_nat (length pre)) 0); [lia|].
  rewrite Nat2Z.id, app_nth2, Nat.sub_diag by lia. reflexivity.
Qed.

Lemma double_residual_self_from (pre suf : list Double.double) :
  Forall finite_double suf ->
  Double.reduce_from
    (fun sum val i =>
       Double.add sum
         (Double.pow2 (Double.sub val (Double.get (pre ++ suf) (Z.of_nat i)))))
    (length pre) suf (S754_zero false)
  = S754_zero false.
Proof.
  intros H. revert pre. induction H as [|x suf Hx _ IH]; intros pre.
  - reflexivity.
  - cbn [Double.reduce_from]. rewrite double_get_middle, sub_self by exact Hx.
    change (Double.add (S754_zero false) (Double.pow2 (S754_zero false)))
      with (S754_zero false).
    replace (pre ++ x :: suf) with ((pre ++ [x]) ++ suf)
      by (rewrite <- app_assoc; reflexivity).
    replace (S (length pre)) with (length (pre ++ [x]))
      by (rewrite length_app; simpl; lia).
    apply IH.
Qed.

Lemma double_residualSumSquares_self (actual : list Double.double) :
  Forall finite_double actual ->
  Double.residualSumSquares actual actual = S754_zero false.
Proof. intros H. exact (double_residual_self_from [] actual H). Qed.

Lemma finite_doubles_no_NaN (l : list Double.double) :
  Forall finite_double l -> existsb Double.isNaN l = false.
Proof.
  induction 1 as [|x l Hx _ IH]; simpl; [reflexivity|].
  rewrite IH, orb_false_r. unfold Double.isNaN, finite_double in *.
  destruct (Double.value x); simpl in *; congruence.
Qed.

(** X6.  The score of a perfect prediction of finite values is exactly 1
    whenever the total sum of squares that the code computes is a number
    other than 0. *)
Theorem calculateR2Score_perfect (actual : list Double.double) :
  Forall finite_double actual ->
  Double.isNaN (Double.totalSumSquares actual) = false ->
  Double.strict_eq (Double.totalSumSquares actual) (Double.lit 0) = false ->
  Double.calculateR2Score actual actual = Ok (Double.lit 1).
Proof.
  intros Hf Hn Hz. unfold Double.calculateR2Score.
  rewrite Nat.eqb_refl, (finite_doubles_no_NaN actual Hf). cbn [negb orb].
  rewrite Hz. cbv zeta. rewrite (double_residualSumSquares_self actual Hf).
  destruct (Double.totalSumSquares actual) as [s|[|]| |[|] m e];
    try discriminate; reflexivity.
Qed.

Lemma calculateR2Score_perfect_witness :
  Double.calculateR2Score (map Double.of_Z [1; 3]%Z) (map Double.of_Z [1; 3]%Z)
  = Ok (Double.lit 1).
Proof.
  apply (calculateR2Score_perfect (map Double.of_Z [1; 3]%Z)).
  - repeat constructor.
  - vm_compute. reflexivity.
  - vm_compute. reflexivity.
Defined.

(* ================================================================= *)
(** ** The volatility is not negative *)



(* ================================================================= *)
(** ** The predictions for the historical indices *)








(* ================================================================= *)
(** ** Which path of [enhancedPredictStock] runs *)

(** X9.  The only error that [fastPredictStock] and [enhancedPredictStock] let
    reach their caller is the one for fewer than ten points. *)
Theorem enhancedPredictStock_only_error
    {M : MathLib} {T : TensorFlow} (stockData : list StockPoint) (msg : string) :
  (fastPredictStock stockData = Throw msg
   <-> (length stockData < 10)%nat /\ msg = "Insufficient data for prediction"%string) /\
  (enhancedPredictStock stockData = Throw msg
   <-> (length stockData < 10)%nat /\ msg = "Insufficient data for prediction"%string).
Proof.
  unfold enhancedPredictStock, fastPredictStock.
  destruct (Nat.ltb_spec (length stockData) 10) as [L|L]; cbn [bind].
  - split; (split; [intros [= <-]; auto | intros [_ ->]; reflexivity]).
  - split.
    + split; [discriminate | intros [? _]; lia].
    + split; [|intros [? _]; lia].
      destruct (enhanced_try stockData); discriminate.
Qed.

Lemma enhancedPredictStock_only_error_witness :
  @enhancedPredictStock SampleMath tf_half (series_of [1; 2; 3]%Z)
  = Throw "Insufficient data for prediction".
Proof.
  apply (@enhancedPredictStock_only_error SampleMath tf_half (series_of [1; 2; 3]%Z)).
  split; [simpl; lia | reflexivity].
Defined.

(** X10.  The inner timeout: when the training does not resolve within 8000
    milliseconds (it resolves later, rejects, or never settles), the result
    is the one of the statistical predictor. *)
Theorem enhancedPredictStock_inner_timeout
    {M : MathLib} (T : TensorFlow) (stockData : list StockPoint) :
  (forall rows targets,
      match fit rows targets with
      | Resolves ms _ => (8000 < ms)%N
      | _ => True
      end) ->
  enhancedPredictStock stockData = fastPredictStock stockData.
Proof.
  intros Hfit. unfold enhancedPredictStock.
  destruct (fastPredictStock stockData) as [r|msg]; [|reflexivity].
  cbn [bind]. unfold enhanced_try.
  destruct (processStockData _) as [pd|]; [|reflexivity]. cbn [bind].
  unfold trainLinearRegressionModel. cbv zeta.
  match goal with |- context [fit ?a ?b] =>
    specialize (Hfit a b); destruct (fit a b) as [ms net|ms m|]
  end; cbn [race_timeout].
  - destruct (N.leb_spec ms 8000); [lia | reflexivity].
  - destruct (ms <=? 8000)%N; reflexivity.
  - reflexivity.
Qed.

Lemma enhancedPredictStock_inner_timeout_witness :
  @enhancedPredictStock SampleMath
     {| fit := fun _ _ => Resolves 8001 (fun _ => Fin (1 # 2)) |}
     (series_of rising_100)
  = @fastPredictStock SampleMath (series_of rising_100).
Proof.
  apply (@enhancedPredictStock_inner_timeout SampleMath
           {| fit := fun _ _ => Resolves 8001 (fun _ => Fin (1 # 2)) |}).
  intros rows targets. cbn [fit]. lia.
Defined.

(** A series with a date other than [__proto__] builds an object with a
    key. *)
Lemma series_object_not_empty (d : list StockPoint) :
  (exists item, In item d /\ date item <> "__proto__"%string) ->
  series_object d <> [].
Proof.
  intros (item & Hin & Hk) E.
  assert (H : In (date item) (map fst (series_object d))).
  { unfold series_object. apply object_fold_keys. left.
    split; [now apply in_map | exact Hk]. }
  rewrite E in H. exact H.
Qed.

Lemma obj_get_of_key (P : number -> Prop) (o : TimeSeries) k :
  Forall (fun kv => P (snd kv)) o -> In k (map fst o) -> P (obj_get o k).
Proof.
  induction 1 as [|[k' v] o Hv _ IH]; simpl; [contradiction|].
  destruct (String.eqb_spec k' k); [auto|]. intros [?|?]; [congruence | auto].
Qed.

(** The series that [processStockData] accepts when it is called from
    [enhancedPredictStock]: those without a [NaN] price that have some date
    other than [__proto__]. *)
Lemma processStockData_of_series (d : list StockPoint) :
  (exists item, In item d /\ date item <> "__proto__"%string) ->
  existsb isNaN (map price d) = false ->
  exists pd, processStockData (Some (series_object d)) = Ok pd /\
             length (prices pd) = length (xs pd).
Proof.
  intros Hne Hnan.
  assert (Hv : Forall (fun kv => isNaN (snd kv) = false) (series_object d)).
  { apply (object_of_series_values (fun x => isNaN x = false)); [|constructor].
    clear -Hnan. induction (map price d); constructor; simpl in Hnan;
      apply orb_false_iff in Hnan as [? ?]; auto. }
  assert (Hf : Forall (fun k => isNaN (obj_get (series_object d) k) = false)
                      (sorted_keys (series_object d))).
  { apply Forall_forall. intros k Hin.
    apply (obj_get_of_key (fun x => isNaN x = false)); [exact Hv|].
    eapply Permutation_in; [apply sorted_keys_perm | exact Hin]. }
  unfold processStockData.
  destruct (parse_prices_spec (series_object d) (sorted_keys (series_object d))
              (map (obj_get (series_object d)) (sorted_keys (series_object d))))
    as [_ Hb].
  rewrite Hb by auto. cbn [bind].
  rewrite existsb_isNaN_map by assumption.
  rewrite length_map, (Permutation_length (sorted_keys_perm _)), length_map.
  pose proof (series_object_not_empty d Hne).
  destruct (series_object d) eqn:E; [congruence|]. cbn [length Nat.eqb].
  eexists. split; [reflexivity|]. cbn [prices xs].
  unfold iota. rewrite !length_map, length_seq.
  rewrite (Permutation_length (sorted_keys_perm _)), length_map. reflexivity.
Qed.

(** X11.  The enhanced path is taken whenever the training resolves within
    8000 milliseconds: on a series of at least ten points without a [NaN]
    price, one of whose dates is not [__proto__], no other step of the
    enhanced path throws, and the result is the one built from the
    network. *)
Theorem enhancedPredictStock_path_taken
    {M : MathLib} (T : TensorFlow) (stockData : list StockPoint) :
  (10 <= length stockData)%nat ->
  (exists item, In item stockData /\ date item <> "__proto__"%string) ->
  existsb isNaN (map price stockData) = false ->
  (forall rows targets,
      exists ms net, fit rows targets = Resolves ms net /\ (ms <= 8000)%N) ->
  exists r, enhanced_try stockData = Ok r /\
            enhancedPredictStock stockData = Ok r.
Proof.
  intros Hlen Hne Hnan Hfit.
  assert (He : exists r, enhanced_try stockData = Ok r).
  { unfold enhanced_try. fold (series_object stockData).
    destruct (processStockData_of_series stockData Hne Hnan) as (pd & -> & Hl).
    cbn [bind]. unfold trainLinearRegressionModel. cbv zeta.
    match goal with |- context [fit ?a ?b] =>
      destruct (Hfit a b) as (ms & net & -> & Hms)
    end.
    cbn [race_timeout]. apply N.leb_le in Hms as ->. cbn [bind].
    unfold getPredictionsForData, predictNextDay.
    cbn [normalizationParams model_createAdvancedFeatures trainingPrices bind].
    unfold calculateR2Score at 1.
    match goal with |- context [(length ?a =? length ?b)%nat] =>
      replace (length a =? length b)%nat with true
    end.
    2:{ symmetry. apply Nat.eqb_eq. unfold mapi.
        now rewrite length_map_from, !length_map, length_map_from. }
    cbn [negb].
    match goal with |- context [bind ?c _] => destruct c eqn:Er2 end;
      [|revert Er2; case_ifs; discriminate].
    cbn [bind]. unfold calculateMSE at 1.
    match goal with |- context [(length ?a =? length ?b)%nat] =>
      replace (length a =? length b)%nat with true
    end.
    2:{ symmetry. apply Nat.eqb_eq. unfold mapi.
        now rewrite length_map_from, !length_map, length_map_from. }
    cbn [negb].
    match goal with |- context [bind ?c _] => destruct c eqn:Emse end;
      [|revert Emse; case_ifs; discriminate].
    cbn [bind]. unfold last_price.
    destruct (nth_error stockData (length stockData - 1)) eqn:En.
    - cbn [bind]. eexists; reflexivity.
    - apply nth_error_None in En. lia. }
  destruct He as [r Hr]. exists r. split; [exact Hr|].
  unfold enhancedPredictStock, fastPredictStock.
  destruct (Nat.ltb_spec (length stockData) 10); [lia|].
  cbn [bind]. now rewrite Hr.
Qed.

Lemma enhancedPredictStock_path_taken_witness :
  let T := {| fit := fun _ _ => Resolves 8000 (fun _ => Fin (1 # 2)) |} in
  exists r, @enhanced_try SampleMath T (series_of rising_100) = Ok r /\
            @enhancedPredictStock SampleMath T (series_of rising_100) = Ok r.
Proof.
  intros T.
  apply (@enhancedPredictStock_path_taken SampleMath T (series_of rising_100)).
  - simpl; lia.
  - eexists. split; [left; reflexivity | discriminate].
  - reflexivity.
  - intros rows targets. exists 8000%N. eexists. split; [reflexivity | reflexivity].
Defined.

(* ================================================================= *)
(** ** Rounding: fixed points and order *)

Lemma Qfloor_plus_half (z : Z) : Qfloor (inject_Z z + (1 # 2)) = z.
Proof.
  pose proof (Qfloor_le (inject_Z z + (1 # 2))) as H1.
  pose proof (Qlt_floor (inject_Z z + (1 # 2))) as H2.
  set (f := Qfloor (inject_Z z + (1 # 2))) in *.
  rewrite inject_Z_plus in H2. change (inject_Z 1) with 1 in H2.
  assert ((f < z + 1)%Z).
  { rewrite Zlt_Qlt, inject_Z_plus. change (inject_Z 1) with 1. lra. }
  assert ((z < f + 1)%Z).
  { rewrite Zlt_Qlt, inject_Z_plus. change (inject_Z 1) with 1. lra. }
  lia.
Qed.

Lemma round_half_up_comp d x y : x == y -> round_half_up d x == round_half_up d y.
Proof.
  intros H. unfold round_half_up.
  assert (E : x * inject_Z (pow10 d) + (1 # 2) == y * inject_Z (pow10 d) + (1 # 2))
    by (rewrite H; reflexivity).
  now rewrite (Qfloor_comp _ _ E).
Qed.

(** A decimal with [d] digits is its own rounding. *)
Lemma round_half_up_fixed d (z : Z) :
  round_half_up d (inject_Z z / inject_Z (pow10 d)) == inject_Z z / inject_Z (pow10 d).
Proof.
  pose proof (pow10_positive d) as HP. unfold round_half_up.
  assert (E : inject_Z z / inject_Z (pow10 d) * inject_Z (pow10 d) + (1 # 2)
              == inject_Z z + (1 # 2)) by (field; lra).
  rewrite (Qfloor_comp _ _ E), Qfloor_plus_half. reflexivity.
Qed.

Lemma round_half_up_nonneg d q : 0 <= q -> (0 <= Qfloor (q * inject_Z (pow10 d) + (1 # 2)))%Z.
Proof.
  intros Hq. pose proof (pow10_positive d) as HP.
  rewrite <- (Qfloor_Z 0). apply Qfloor_resp_le.
  change (inject_Z 0) with 0. nra.
Qed.

Lemma toFixed_of_decimal d (f : Z) :
  (0 <= f)%Z ->
  number_eq (toFixed d (Fin (inject_Z f / inject_Z (pow10 d))))
            (Fin (inject_Z f / inject_Z (pow10 d))) /\
  number_eq (toFixed d (Fin (- (inject_Z f / inject_Z (pow10 d)))))
            (Fin (- (inject_Z f / inject_Z (pow10 d)))).
Proof.
  intros Hf. pose proof (pow10_positive d) as HP.
  assert (Hr : 0 <= inject_Z f / inject_Z (pow10 d)).
  { apply Qle_shift_div_l; [exact HP|].
    rewrite Zle_Qle in Hf. change (inject_Z 0) with 0 in Hf. lra. }
  split; unfold toFixed.
  - destruct (Qle_bool _ (Qabs _)); [simpl; reflexivity|].
    apply Qle_bool_iff in Hr as ->. simpl. apply round_half_up_fixed.
  - destruct (Qle_bool _ (Qabs _)); [simpl; reflexivity|].
    qle_cases 0 (- (inject_Z f / inject_Z (pow10 d))); simpl.
    + assert (E0 : - (inject_Z f / inject_Z (pow10 d))
                   == inject_Z 0 / inject_Z (pow10 d)).
      { change (inject_Z 0) with 0. unfold Qdiv at 2. rewrite Qmult_0_l. lra. }
      rewrite (round_half_up_comp d _ _ E0), round_half_up_fixed.
      symmetry. exact E0.
    + assert (E0 : - - (inject_Z f / inject_Z (pow10 d))
                   == inject_Z f / inject_Z (pow10 d)) by ring.
      rewrite (round_half_up_comp d _ _ E0), round_half_up_fixed. reflexivity.
Qed.

Lemma toFixed_idempotent_aux (d : nat) (x : number) :
  number_eq (toFixed d (toFixed d x)) (toFixed d x).
Proof.
  destruct x as [q| | |]; try exact I.
  assert (Hin : (toFixed d (Fin q) = Fin q /\
                 Qle_bool (inject_Z (pow10 21)) (Qabs q) = true) \/
                exists f, (0 <= f)%Z /\
                  (toFixed d (Fin q) = Fin (inject_Z f / inject_Z (pow10 d)) \/
                   toFixed d (Fin q) = Fin (- (inject_Z f / inject_Z (pow10 d))))).
  { unfold toFixed.
    destruct (Qle_bool (inject_Z (pow10 21)) (Qabs q)); [left; auto|]. right.
    qle_cases 0 q.
    - eexists. split; [apply (round_half_up_nonneg d q Hq)|]. left. reflexivity.
    - eexists. split; [apply (round_half_up_nonneg d (- q)); lra|].
      right. reflexivity. }
  destruct Hin as [[E Hb] | (f & Hf & [E | E])]; rewrite E.
  - unfold toFixed. rewrite Hb. simpl. reflexivity.
  - now apply toFixed_of_decimal.
  - now apply toFixed_of_decimal.
Qed.

(** X13.  Rounding a rounded field again changes nothing:
    [parseFloat(x.toFixed(d))] is idempotent, and it keeps a number that is
    not [NaN] such. *)
Theorem toFixed_idempotent (d : nat) (x : number) :
  number_eq (toFixed d (toFixed d x)) (toFixed d x) /\
  isNaN (toFixed d x) = isNaN x.
Proof.
  split; [apply toFixed_idempotent_aux|].
  destruct x as [q| | |]; try reflexivity. unfold toFixed. case_ifs; reflexivity.
Qed.

(* ================================================================= *)
(** ** The inputs of the chart *)

Lemma nth_error_snoc_at {A} (l : list A) (x : A) (n : nat) :
  length l = n -> nth_error (l ++ [x]) n = Some x.
Proof. intros <-. apply nth_error_snoc_last. Qed.

Section HistoricalFacts.
Context {R : RandomSource}.

Lemma historical_loop_spec prices n i acc :
  historical_loop prices n i acc
  = acc ++ map (historical_prediction prices) (seq i n).
Proof.
  revert i acc. induction n as [|n IH]; intros i acc; simpl.
  - now rewrite app_nil_r.
  - rewrite IH, <- app_assoc. reflexivity.
Qed.

Lemma generateHistoricalPredictions_spec stockData :
  generateHistoricalPredictions stockData
  = map (historical_prediction (map price stockData)) (seq 0 (length stockData)).
Proof.
  unfold generateHistoricalPredictions.
  destruct stockData as [|p l]; [reflexivity|].
  cbn [length Nat.eqb]. cbv zeta. rewrite historical_loop_spec, length_map.
  reflexivity.
Qed.

(** X20.  With a prediction, the four arrays of the chart are aligned: each has
    one entry per date and one for the next day; the actual prices stop
    where the future point starts, and the future point is the predicted
    price, at the label of the next day. *)
Theorem page_chart_aligned
    (stockData : list StockPoint) (p : Prediction) (nextDate : string) :
  let chart := page_chart stockData (Some p) nextDate in
  let n := length stockData in
  length (labels chart) = S n /\
  length (actualDataset chart) = S n /\
  length (historicalDataset chart) = S n /\
  length (futureDataset chart) = S n /\
  nth_error (labels chart) n = Some nextDate /\
  nth_error (actualDataset chart) n = Some None /\
  nth_error (historicalDataset chart) n = Some None /\
  nth_error (futureDataset chart) n = Some (Some (predictedPrice p)) /\
  (forall i, (i < n)%nat -> nth_error (futureDataset chart) i = Some None).
Proof.
  cbv zeta. unfold page_chart, StockChart.
  cbn [labels actualDataset historicalDataset futureDataset length repeat map].
  rewrite !length_app, !length_map, repeat_length.
  rewrite generateHistoricalPredictions_spec, length_map, length_seq.
  cbn [length].
  repeat split; try lia.
  1-4: apply nth_error_snoc_at;
       rewrite ?length_map, ?length_seq, ?repeat_length; reflexivity.
  intros i Hi. rewrite nth_error_app1 by (rewrite repeat_length; exact Hi).
  now apply nth_error_repeat.
Qed.

End HistoricalFacts.

Lemma page_chart_aligned_witness :
  let p := {| currentPrice := Fin 109; predictedPrice := Fin 110;
              confidence := Fin 60; trend := up;
              change := Fin 1; changePercent := Fin 0.92 |} in
  nth_error (futureDataset (@page_chart half_random (series_of rising_100)
                              (Some p) "2024-01-15")) 3 = Some None.
Proof.
  intros p.
  apply (@page_chart_aligned half_random (series_of rising_100) p "2024-01-15").
  simpl; lia.
Defined.

(* ================================================================= *)
(** ** The stock route *)

Lemma toFixed_not_NaN d x : isNaN x = false -> isNaN (toFixed d x) = false.
Proof.
  destruct x as [q| | |]; try discriminate; auto. intros _. unfold toFixed.
  case_ifs; reflexivity.
Qed.

(** [parseFloat(x.toFixed(d))] on a value that is already rounded. *)
Lemma toFixed_twice d x : number_eq (toFixed d (toFixed d x)) (toFixed d x).
Proof. apply toFixed_idempotent_aux. Qed.

Lemma dot_free_split (x rest : string) :
  dot_free x = true ->
  split_dot (x ++ String "."%char rest) = x :: split_dot rest.
Proof.
  induction x as [|c x IH]; simpl; intros H; [reflexivity|].
  apply andb_true_iff in H as [Hc Hx].
  apply negb_true_iff in Hc. rewrite Hc, IH by exact Hx. reflexivity.
Qed.

Lemma dot_free_whole (x : string) : dot_free x = true -> split_dot x = [x].
Proof.
  induction x as [|c x IH]; simpl; intros H; [reflexivity|].
  apply andb_true_iff in H as [Hc Hx].
  apply negb_true_iff in Hc. rewrite Hc, IH by exact Hx. reflexivity.
Qed.

Section RouteFacts.
Context {Y : YahooFinance}.

Lemma yahoo_dataPoints_clean timestamps prices dataPoints :
  yahoo_dataPoints timestamps prices = Some dataPoints ->
  Forall clean_point dataPoints.
Proof.
  revert prices dataPoints.
  induction timestamps as [|t ts IH]; intros [|p ps] pts; simpl;
    try (intros [= <-]; constructor).
  destruct p as [v|]; [|apply IH].
  destruct (isNaN v) eqn:Hv; [apply IH|].
  destruct (iso_date t) as [d|]; [|discriminate].
  destruct (yahoo_dataPoints ts ps) as [rest|] eqn:E; [|discriminate].
  intros [= <-]. constructor; [|now apply (IH ps)].
  split; cbn [price]; [now apply toFixed_not_NaN | apply toFixed_twice].
Qed.

Lemma fetchFromYahooFinance_clean symbol data :
  fetchFromYahooFinance symbol = Some data ->
  (20 < length data)%nat /\ Forall clean_point data.
Proof.
  unfold fetchFromYahooFinance.
  destruct (axios_get_chart symbol) as [result|]; [|discriminate].
  destruct (timestamp result) as [ts|]; [|discriminate].
  destruct (close result) as [ps|]; [|discriminate].
  destruct (length ts =? length ps)%nat; [|discriminate].
  destruct (yahoo_dataPoints ts ps) as [pts|] eqn:E; [|discriminate].
  destruct (Nat.ltb_spec 20 (length pts)); [|discriminate].
  intros [= <-]. split; [assumption|]. eapply yahoo_dataPoints_clean; eauto.
Qed.


(** The alternative formats are tried in order, and a fetch that returns
    points returns more than twenty of them. *)
Lemma try_formats_first formats :
  try_formats formats
  = match formats with
    | [] => None
    | f :: fs =>
        match fetchFromYahooFinance f with
        | Some data => Some data
        | None => try_formats fs
        end
    end.
Proof.
  destruct formats as [|f fs]; [reflexivity|]. simpl.
  destruct (fetchFromYahooFinance f) as [d|] eqn:E; [|reflexivity].
  apply fetchFromYahooFinance_clean in E as [H _].
  apply Nat.ltb_lt in H as ->. reflexivity.
Qed.


(** X22.  The order in which the route asks for a symbol [X.E] of the page, [X]
    and [E] without a dot: first with the suffix of the provider ([.NS] for
    the exchange [NSE], [.BO] otherwise), then as the page wrote it, then
    [X] alone; the first answer with points is returned, and status 503 when
    there is none. *)
Theorem GET_resolution_order (X E : string) :
  dot_free X = true -> dot_free E = true ->
  let symbol := (X ++ "." ++ E)%string in
  let primary :=
    (X ++ (if String.eqb E "NSE" then ".NS" else ".BO"))%string in
  GET (Some symbol)
  = match fetchFromYahooFinance primary with
    | Some data => ApiSuccess data symbol
    | None =>
        match fetchFromYahooFinance symbol with
        | Some data => ApiSuccess data symbol
        | None =>
            match fetchFromYahooFinance X with
            | Some data => ApiSuccess data symbol
            | None => ApiUnavailable symbol
            end
        end
    end.
Proof.
  intros HX HE. cbv zeta. unfold GET.
  assert (Hne : String.eqb (X ++ "." ++ E) "" = false)
    by (destruct X; reflexivity).
  rewrite Hne. cbv zeta.
  change (X ++ "." ++ E)%string with (X ++ String "."%char E)%string.
  rewrite (dot_free_split X E HX), (dot_free_whole E HE).
  cbn [nth nth_error is_NSE].
  unfold tryAlternativeFormats, alternative_formats.
  cbn [is_NSE show_exchange].
  assert (Ep : (X ++ "." ++ (if String.eqb E "NSE" then "NS" else "BO"))%string
               = (X ++ (if String.eqb E "NSE" then ".NS" else ".BO"))%string)
    by (destruct (String.eqb E "NSE"); reflexivity).
  rewrite Ep.
  assert (Eq : (if String.eqb E "NSE" then (X ++ ".NS")%string else (X ++ ".BO")%string)
               = (X ++ (if String.eqb E "NSE" then ".NS" else ".BO"))%string)
    by (destruct (String.eqb E "NSE"); reflexivity).
  rewrite Eq.
  set (primary := (X ++ (if String.eqb E "NSE" then ".NS" else ".BO"))%string).
  change (X ++ "." ++ E)%string with (X ++ String "."%char E)%string.
  destruct (fetchFromYahooFinance primary) as [d|] eqn:E1.
  - apply fetchFromYahooFinance_clean in E1 as [H _].
    apply Nat.ltb_lt in H as ->. reflexivity.
  - rewrite try_formats_first, E1, try_formats_first.
    destruct (fetchFromYahooFinance (X ++ String "."%char E)) as [d|] eqn:E2.
    + apply fetchFromYahooFinance_clean in E2 as [H _].
      apply Nat.ltb_lt in H as ->. reflexivity.
    + rewrite try_formats_first.
      destruct (fetchFromYahooFinance X) as [d|] eqn:E3.
      * apply fetchFromYahooFinance_clean in E3 as [H _].
        apply Nat.ltb_lt in H as ->. reflexivity.
      * reflexivity.
Qed.

End RouteFacts.


Lemma GET_resolution_order_witness :
  exists stockData,
    @GET sample_yahoo (Some "TCS.NSE"%string) = ApiSuccess stockData "TCS.NSE" /\
    @fetchFromYahooFinance sample_yahoo "TCS.NS" = None /\
    @fetchFromYahooFinance sample_yahoo "TCS.NSE" = Some stockData.
Proof.
  pose proof (@GET_resolution_order sample_yahoo "TCS" "NSE" eq_refl eq_refl) as H.
  cbv zeta in H.
  eexists. split; [|split].
  3: vm_compute; reflexivity.
  2: vm_compute; reflexivity.
  etransitivity; [exact H|]. vm_compute. reflexivity.
Defined.

(* ================================================================= *)
(** ** The features of the training series *)

Lemma list_of_five {A} (l : list A) (d : A) :
  length l = 5%nat -> l = [nth 0 l d; nth 1 l d; nth 2 l d; nth 3 l d; nth 4 l d].
Proof.
  intros H. do 6 (destruct l as [|? l]; try discriminate). reflexivity.
Qed.

Lemma nth_slice {A} (from to k : nat) (l : list A) (d : A) :
  (from + k < to)%nat -> nth k (slice from to l) d = nth (from + k) l d.
Proof.
  intros H. unfold slice. rewrite nth_skipn, nth_firstn.
  apply Nat.ltb_lt in H as ->. reflexivity.
Qed.

Lemma length_slice {A} (from to : nat) (l : list A) :
  (to <= length l)%nat -> length (slice from to l) = (to - from)%nat.
Proof.
  intros H. unfold slice. rewrite length_skipn, length_firstn. lia.
Qed.

Lemma get_nat (a : list number) (i : Z) :
  (0 <= i)%Z -> get a i = nth (Z.to_nat i) a NaN.
Proof. intros H. unfold get. destruct (Z.ltb_spec i 0); [lia | reflexivity]. Qed.

(** The window of the five-day average, where the code computes one: the
    five prices that end at the index. *)
Lemma window5_five (prices : list number) (index : Z) :
  (4 <= index < Z.of_nat (length prices))%Z ->
  window5 prices index
  = [get prices (index - 4); get prices (index - 3); get prices (index - 2);
     get prices (index - 1); get prices index].
Proof.
  intros H. unfold window5.
  rewrite (list_of_five (slice _ _ prices) NaN) by (rewrite length_slice; lia).
  rewrite !nth_slice by lia. rewrite !get_nat by lia.
  repeat (f_equal; try lia).
Qed.

(** X17.  From index 4 on, and inside the series, the five-day average is the mean
    of exactly five prices, those at [index - 4], ..., [index]; the divisor
    [Math.min(5, index + 1)] is 5. *)
Theorem ma5_of_five_prices (prices : list number) (index : Z) :
  (4 <= index < Z.of_nat (length prices))%Z ->
  ma5_of prices index
  = ((Fin 0 + get prices (index - 4) + get prices (index - 3)
      + get prices (index - 2) + get prices (index - 1) + get prices index)
     / Fin 5)%js.
Proof.
  intros H. unfold ma5_of.
  destruct (Z.leb_spec 4 index); [|lia].
  rewrite window5_five by exact H.
  replace (Z.min 5 (index + 1)) with 5%Z by lia. reflexivity.
Qed.

Lemma ma5_of_five_prices_witness :
  ma5_of [Fin 1; Fin 2; Fin 3; Fin 4; Fin 5; Fin 6] 5
  = ((Fin 0 + Fin 2 + Fin 3 + Fin 4 + Fin 5 + Fin 6) / Fin 5)%js.
Proof.
  apply (ma5_of_five_prices [Fin 1; Fin 2; Fin 3; Fin 4; Fin 5; Fin 6] 5).
  simpl; lia.
Defined.

(* ================================================================= *)
(** ** The current price of a result *)

Lemma last_price_is_current (stockData : list StockPoint) :
  (1 <= length stockData)%nat ->
  last_price stockData = Ok (fast_currentPrice (map price stockData)).
Proof.
  intros Hlen. unfold last_price, fast_currentPrice.
  rewrite length_map, get_nat by lia.
  replace (Z.to_nat (Z.of_nat (length stockData) - 1)) with (length stockData - 1)%nat
    by lia.
  destruct (nth_error stockData (length stockData - 1)) as [p|] eqn:E.
  - f_equal. rewrite (nth_indep _ NaN (price p)) by (rewrite length_map; lia).
    rewrite map_nth. f_equal. symmetry. now apply nth_error_nth.
  - apply nth_error_None in E. lia.
Qed.

(** X12.  Whichever path produced it, the current price of a result of
    [enhancedPredictStock] is the price of the last point of the series,
    rounded to two decimals. *)
Theorem enhancedPredictStock_currentPrice
    {M : MathLib} {T : TensorFlow} (stockData : list StockPoint) (r : Prediction) :
  enhancedPredictStock stockData = Ok r ->
  exists p, last_price stockData = Ok p /\ currentPrice r = toFixed 2 p.
Proof.
  unfold enhancedPredictStock, fastPredictStock.
  destruct (Nat.ltb_spec (length stockData) 10) as [L|L]; [discriminate|].
  cbn [bind]. destruct (enhanced_try stockData) as [r'|msg] eqn:He;
    cbn [try_catch]; intros [= <-].
  - unfold enhanced_try in He.
    repeat match type of He with
           | bind ?c _ = Ok _ =>
               let x := fresh "x" in
               destruct c as [x|] eqn:?; [cbn [bind] in He | discriminate He]
           end.
    injection He as <-. cbn [currentPrice]. eexists. split; reflexivity.
  - cbn [currentPrice]. eexists. split; [|reflexivity].
    apply last_price_is_current. lia.
Qed.

Lemma enhancedPredictStock_currentPrice_witness :
  exists r p,
    @enhancedPredictStock SampleMath tf_half (series_of rising_100) = Ok r /\
    last_price (series_of rising_100) = Ok p /\ currentPrice r = toFixed 2 p.
Proof.
  eexists.
  destruct (@enhancedPredictStock_currentPrice SampleMath tf_half
              (series_of rising_100) _ ltac:(vm_compute; reflexivity))
    as (p & Hp & Hc).
  exists p. split; [vm_compute; reflexivity|]. split; assumption.
Defined.

(* ================================================================= *)
(** ** A request without an exchange *)

(** X23.  A symbol without a dot has no exchange: the route asks the provider for
    [X.BO], then for [X.undefined], then for [X]. *)
Theorem GET_without_exchange {Y : YahooFinance} (X : string) :
  dot_free X = true -> X <> ""%string ->
  GET (Some X)
  = match fetchFromYahooFinance (X ++ ".BO") with
    | Some data => ApiSuccess data X
    | None =>
        match fetchFromYahooFinance (X ++ ".undefined") with
        | Some data => ApiSuccess data X
        | None =>
            match fetchFromYahooFinance X with
            | Some data => ApiSuccess data X
            | None => ApiUnavailable X
            end
        end
    end.
Proof.
  intros HX Hne. unfold GET.
  assert (Hn : String.eqb X "" = false) by now apply String.eqb_neq.
  rewrite Hn. cbv zeta. rewrite (dot_free_whole X HX).
  cbn [nth nth_error is_NSE].
  unfold tryAlternativeFormats, alternative_formats.
  cbn [is_NSE show_exchange].
  change (X ++ "." ++ "BO")%string with (X ++ ".BO")%string.
  change (X ++ "." ++ "undefined")%string with (X ++ ".undefined")%string.
  destruct (fetchFromYahooFinance (X ++ ".BO")) as [d|] eqn:E1.
  - apply fetchFromYahooFinance_clean in E1 as [H _].
    apply Nat.ltb_lt in H as ->. reflexivity.
  - rewrite try_formats_first, E1, try_formats_first.
    destruct (fetchFromYahooFinance (X ++ ".undefined")) as [d|] eqn:E2.
    + apply fetchFromYahooFinance_clean in E2 as [H _].
      apply Nat.ltb_lt in H as ->. reflexivity.
    + rewrite try_formats_first.
      destruct (fetchFromYahooFinance X) as [d|] eqn:E3.
      * apply fetchFromYahooFinance_clean in E3 as [H _].
        apply Nat.ltb_lt in H as ->. reflexivity.
      * reflexivity.
Qed.

Lemma GET_without_exchange_witness :
  exists stockData,
    @GET sample_yahoo (Some "INFY"%string) = ApiSuccess stockData "INFY" /\
    @fetchFromYahooFinance sample_yahoo "INFY" = Some stockData.
Proof.
  pose proof (@GET_without_exchange sample_yahoo "INFY" eq_refl
                ltac:(discriminate)) as H.
  eexists. split.
  2: vm_compute; reflexivity.
  etransitivity; [exact H|]. vm_compute. reflexivity.
Defined.
